(** * nansat.domain: the extent-string parser and the geotransform derivation

    A shallow embedding of the option-string part of [nansat/domain.py]:
    [Domain._check_extent_input], [Domain._create_extent_dict],
    [Domain._convert_extentDic], [Domain._get_geotransform],
    [Domain._transform_tr] and [Domain._transform_ts], together with the
    path of [Domain.__init__] that chains them, and of
    [Domain.get_pixelsize_meters], [Domain.get_border] and the two helpers
    of the latter.

    The language is Python 3: the quotient of two [int]s is a float, and
    [range] builds a range object.

    Python values are modelled as follows.
    - [str]: [string]; one [ascii] per code point below 256.
    - [float]: IEEE 754 binary64, as [spec_float] with the operations of
      [SpecFloat] at precision 53 and maximal exponent 1024. The type also
      holds unnormalised mantissas; [float(s)] and the operations return
      normalised values, and the statements hold for all of them.
    - [int]: [Z].
    - [dict] from option names to lists of floats: [gmap string (list float)].
    - exceptions: the error case of [result], one constructor per class.
    - a dictionary object that is updated in place lives in a [heap]. *)

From Stdlib Require Import ZArith Lia Bool List Ascii String.
From Stdlib Require Import SpecFloat.
From stdpp Require Import base option list gmap strings fin_maps.

Local Open Scope Z_scope.
Local Open Scope string_scope.

(** ** Exceptions and the error monad *)

(** The texts of the [OptionError]s raised by the modelled functions; the
    values interpolated with [%s] are the constructor arguments. *)
Inductive option_message : Type :=
  (** ['_create_extentDic requires exactly 2 parameters (%s given)'] *)
  | Msg_two_parameters (given : nat)
  (** ['%s requires exactly %s parameters (%s given)'] *)
  | Msg_requires_exactly (opt : string) (size given : nat)
  (** ['Input values must be int or float'] *)
  | Msg_int_or_float
  (** ['Expeced parameter is te, lle, ts, tr. (%s given)'] *)
  | Msg_expected_parameter (given : string)
  (** ['The extent is illegal "-te xMin yMin xMax yMax"'] *)
  | Msg_extent_illegal
  (** ['"-tr" is too large. width is %s, height is %s '] *)
  | Msg_tr_too_large (width height : spec_float).

Inductive exn : Type :=
  | OptionError (msg : option_message)
  | ValueError
  | ZeroDivisionError
  | OverflowError
  | IndexError
  | KeyError (key : string)
  | TypeError
  | AttributeError.

Inductive result (A : Type) : Type :=
  | Ok (a : A)
  | Raise (e : exn).
Arguments Ok {A} a.
Arguments Raise {A} e.

#[export] Instance result_ret : MRet result := fun _ a => Ok a.

#[export] Instance result_bind : MBind result := fun _ _ k m =>
  match m with
  | Ok a => k a
  | Raise e => Raise e
  end.

Definition is_Ok {A} (m : result A) : Prop := exists a, m = Ok a.

Definition is_OptionError {A} (m : result A) : Prop :=
  exists msg, m = Raise (OptionError msg).

(** [[f(x) for x in l]], stopping at the first exception. *)
Fixpoint traverse {A B} (f : A -> result B) (l : list A) : result (list B) :=
  match l with
  | [] => Ok []
  | a :: l' => b ← f a; bs ← traverse f l'; Ok (b :: bs)
  end.

(** [l[i]] on a Python list. *)
Definition py_index {A} (l : list A) (i : nat) : result A :=
  match l !! i with
  | Some a => Ok a
  | None => Raise IndexError
  end.

(** ** Builtins: strings *)

Module Str.

(** [str.isspace] on one character, for the code points below 256. *)
Definition isspace (c : ascii) : bool :=
  let n := nat_of_ascii c in
  ((9 <=? n)%nat && (n <=? 13)%nat)
  || ((28 <=? n)%nat && (n <=? 32)%nat)
  || (n =? 133)%nat || (n =? 160)%nat.

Fixpoint lstrip (s : string) : string :=
  match s with
  | String c s' => if isspace c then lstrip s' else s
  | EmptyString => EmptyString
  end.

Fixpoint rstrip (s : string) : string :=
  match s with
  | String c s' =>
      match rstrip s' with
      | EmptyString => if isspace c then EmptyString else String c EmptyString
      | r => String c r
      end
  | EmptyString => EmptyString
  end.

(** [s.strip()] *)
Definition strip (s : string) : string := rstrip (lstrip s).

(** [s.split(sep)] for a separator of one character: every occurrence
    splits, empty fields are kept, and the empty string gives [['']]. *)
Fixpoint split_on (sep : ascii) (s : string) : list string :=
  match s with
  | EmptyString => [EmptyString]
  | String c s' =>
      if Ascii.eqb c sep then EmptyString :: split_on sep s'
      else match split_on sep s' with
           | field :: fields => String c field :: fields
           | [] => [String c EmptyString]
           end
  end.

(** [s.split()]: fields are the maximal runs without whitespace. *)
Fixpoint split (s : string) : list string :=
  match s with
  | EmptyString => []
  | String c s' =>
      if isspace c then split s'
      else match s' with
           | EmptyString => [String c EmptyString]
           | String c' _ =>
               if isspace c' then String c EmptyString :: split s'
               else match split s' with
                    | field :: fields => String c field :: fields
                    | [] => [String c EmptyString]
                    end
           end
  end.

(** [s.count(c)] *)
Fixpoint count (c : ascii) (s : string) : nat :=
  match s with
  | EmptyString => 0%nat
  | String a s' => ((if Ascii.eqb a c then 1 else 0) + count c s')%nat
  end.

(** [' '.join(l)] *)
Fixpoint join (l : list string) : string :=
  match l with
  | [] => EmptyString
  | [x] => x
  | x :: l' => x ++ " " ++ join l'
  end.

End Str.

(** ** Builtins: floats *)

Abbreviation float := spec_float.

Module Float.

Definition prec : Z := 53.
Definition emax : Z := 1024.

Definition sub : float -> float -> float := SFsub prec emax.
Definition div : float -> float -> float := SFdiv prec emax.
Definition ltb : float -> float -> bool := SFltb.
Definition leb : float -> float -> bool := SFleb.
Definition neg : float -> float := SFopp.
Definition abs : float -> float := SFabs.

(** [float(n)] for an [int] n, rounded to nearest even. *)
Definition of_Z (n : Z) : float := binary_normalize prec emax n 0 false.

(** An [int] of any size as an operand of a division: all its digits are
    kept, and the quotient is rounded once. *)
Definition exact (n : Z) : float :=
  match n with
  | Z0 => S754_zero false
  | Zpos p => S754_finite false p 0
  | Zneg p => S754_finite true p 0
  end.

Definition zero : float := S754_zero false.
Definition inf : float := S754_infinity false.
Definition nan : float := S754_nan.

Definition is_zero (x : float) : bool :=
  match x with S754_zero _ => true | _ => false end.

(** [math.isfinite] *)
Definition is_finite (x : float) : bool :=
  match x with S754_zero _ | S754_finite _ _ _ => true | _ => false end.

(** The sign bit; [nan] has none in this model. *)
Definition signbit (x : float) : bool :=
  match x with
  | S754_zero s | S754_infinity s | S754_finite s _ _ => s
  | S754_nan => false
  end.

(** [x / y]: Python raises on a zero divisor, of either sign. *)
Definition py_div (x y : float) : result float :=
  if is_zero y then Raise ZeroDivisionError else Ok (div x y).

(** [int(x)]: truncation toward zero. *)
Definition py_int (x : float) : result Z :=
  match x with
  | S754_zero _ => Ok 0
  | S754_finite s m e => Ok (cond_Zopp s (Z.shiftl (Z.pos m) e))
  | S754_infinity _ => Raise OverflowError
  | S754_nan => Raise ValueError
  end.

(** [min(l)] and [max(l)] on a non-empty list: the first element is kept
    until a later one compares strictly below (above) it. *)
Definition py_min (x : float) (l : list float) : float :=
  fold_left (fun cur item => if ltb item cur then item else cur) l x.
Definition py_max (x : float) (l : list float) : float :=
  fold_left (fun cur item => if ltb cur item then item else cur) l x.

(** *** [float(s)] on a string

    The grammar of the language reference:
    [[sign] (floatnumber | "inf" | "infinity" | "nan")] with
    [floatnumber ::= ([digitpart] "." digitpart | digitpart ["."]) [exponent]],
    [digitpart ::= digit (["_"] digit)*] and
    [exponent ::= ("e" | "E") [sign] digitpart]; surrounding whitespace is
    ignored and the words are matched without regard to case. *)

Definition digit_of (c : ascii) : option Z :=
  let n := nat_of_ascii c in
  if ((48 <=? n)%nat && (n <=? 57)%nat)%bool then Some (Z.of_nat n - 48) else None.

Definition lower (c : ascii) : ascii :=
  let n := nat_of_ascii c in
  if ((65 <=? n)%nat && (n <=? 90)%nat)%bool then ascii_of_nat (n + 32) else c.

(** After a digit: the rest of a digitpart, [(["_"] digit)*]. *)
Fixpoint digits_rest (l : list ascii) : list Z * list ascii :=
  match l with
  | c :: l' =>
      match digit_of c with
      | Some d => let '(ds, r) := digits_rest l' in (d :: ds, r)
      | None =>
          if Ascii.eqb c "_" then
            match l' with
            | c' :: l'' =>
                match digit_of c' with
                | Some d => let '(ds, r) := digits_rest l'' in (d :: ds, r)
                | None => ([], l)
                end
            | [] => ([], l)
            end
          else ([], l)
      end
  | [] => ([], [])
  end.

(** A digitpart, if the input starts with one. *)
Definition digitpart (l : list ascii) : option (list Z * list ascii) :=
  match l with
  | c :: l' =>
      match digit_of c with
      | Some d => let '(ds, r) := digits_rest l' in Some (d :: ds, r)
      | None => None
      end
  | [] => None
  end.

Definition Z_of_digits (ds : list Z) : Z :=
  fold_left (fun acc d => 10 * acc + d) ds 0.

(** An optional sign: [true] for ["-"]. *)
Definition sign (l : list ascii) : bool * list ascii :=
  match l with
  | c :: l' =>
      if Ascii.eqb c "-" then (true, l')
      else if Ascii.eqb c "+" then (false, l')
      else (false, l)
  | [] => (false, [])
  end.

(** [number]: the digits before and after the point. *)
Definition number (l : list ascii) : option (list Z * list Z * list ascii) :=
  match digitpart l with
  | Some (ip, r) =>
      match r with
      | c :: r' =>
          if Ascii.eqb c "." then
            match digitpart r' with
            | Some (fp, r'') => Some (ip, fp, r'')
            | None => Some (ip, [], r')
            end
          else Some (ip, [], r)
      | [] => Some (ip, [], [])
      end
  | None =>
      match l with
      | c :: r' =>
          if Ascii.eqb c "." then
            match digitpart r' with
            | Some (fp, r'') => Some ([], fp, r'')
            | None => None
            end
          else None
      | [] => None
      end
  end.

(** [exponent], or nothing when the input has ended. *)
Definition exponent (l : list ascii) : option Z :=
  match l with
  | [] => Some 0
  | c :: l' =>
      if Ascii.eqb (lower c) "e" then
        let '(s, r) := sign l' in
        match digitpart r with
        | Some (ds, []) => Some (cond_Zopp s (Z_of_digits ds))
        | _ => None
        end
      else None
  end.

(** The float nearest to [m * 10 ^ e10], for [m >= 0]. *)
Definition of_decimal (m e10 : Z) : float :=
  match m with
  | Z.pos p =>
      if (0 <=? e10)%Z then of_Z (m * 10 ^ e10)
      else div (S754_finite false p 0)
               (S754_finite false (Z.to_pos (10 ^ (- e10))) 0)
  | _ => zero
  end.

Definition absfloatvalue (l : list ascii) : option float :=
  let w := string_of_list_ascii (map lower l) in
  if String.eqb w "inf" || String.eqb w "infinity" then Some inf
  else if String.eqb w "nan" then Some nan
  else
    match number l with
    | Some (ip, fp, r) =>
        match exponent r with
        | Some e =>
            Some (of_decimal (Z_of_digits (ip ++ fp)) (e - Z.of_nat (length fp)))
        | None => None
        end
    | None => None
    end.

(** The whitespace that [float] ignores around the number: the ASCII
    whitespace, and the other whitespace code points, which it first
    replaces by spaces. The separators 28 to 31, which [str.strip] removes,
    are not among them. *)
Definition isspace (c : ascii) : bool :=
  let n := nat_of_ascii c in
  ((9 <=? n)%nat && (n <=? 13)%nat)
  || (n =? 32)%nat || (n =? 133)%nat || (n =? 160)%nat.

Fixpoint lstrip (s : string) : string :=
  match s with
  | String c s' => if isspace c then lstrip s' else s
  | EmptyString => EmptyString
  end.

Fixpoint rstrip (s : string) : string :=
  match s with
  | String c s' =>
      match rstrip s' with
      | EmptyString => if isspace c then EmptyString else String c EmptyString
      | r => String c r
      end
  | EmptyString => EmptyString
  end.

Definition py_float (s : string) : result float :=
  let '(sg, l) := sign (list_ascii_of_string (rstrip (lstrip s))) in
  match absfloatvalue l with
  | Some x => Ok (if sg then neg x else x)
  | None => Raise ValueError
  end.

End Float.

(** ** The functions of [Domain] *)

(** The dictionary built from an extent string. *)
Abbreviation extent_dict := (gmap string (list float)).

(** Dictionary objects are mutable and passed by reference. *)
Definition ref : Type := nat.
Abbreviation heap := (gmap nat (gmap string (list float))).

(** [d[k]] *)
Definition getitem (d : extent_dict) (k : string) : result (list float) :=
  match d !! k with
  | Some v => Ok v
  | None => Raise (KeyError k)
  end.

(** A [for] loop over a list that updates one variable. *)
Fixpoint for_each {A S} (body : S -> A -> result S) (l : list A) (s : S)
  : result S :=
  match l with
  | [] => Ok s
  | a :: l' => s' ← body s a; for_each body l' s'
  end.

(** ** Builtins: integers, ranges and lists *)

(** A number that is an [int] or a [float]. *)
Inductive py_number : Type :=
  | PyInt (n : Z)
  | PyFloat (x : float).

(** [a / b] on two [int]s: the float nearest to the quotient, whatever the
    size of the operands; a quotient too large for a float raises. *)
Definition py_truediv (a b : Z) : result float :=
  if (b =? 0)%Z then Raise ZeroDivisionError
  else
    let q := Float.div (Float.exact a) (Float.exact b) in
    if Float.is_finite q then Ok q else Raise OverflowError.

(** [max(1, x)] for a float [x]: the first argument is kept unless the
    second compares strictly above it. *)
Definition py_max_one (x : float) : py_number :=
  if Float.ltb (Float.of_Z 1) x then PyFloat x else PyInt 1.

(** A [range] object. *)
Record range : Type :=
  Range { range_start : Z; range_stop : Z; range_step : Z }.

(** [range(start, stop, step)]: the step is an [int] other than zero; a
    float is refused. *)
Definition py_range (start stop : Z) (step : py_number) : result range :=
  match step with
  | PyFloat _ => Raise TypeError
  | PyInt k => if (k =? 0)%Z then Raise ValueError else Ok (Range start stop k)
  end.

(** [len(r)] *)
Definition range_len (r : range) : Z :=
  let '(Range lo hi k) := r in
  if (0 <? k)%Z then (if (lo <? hi)%Z then (hi - lo - 1) / k + 1 else 0)
  else (if (hi <? lo)%Z then (lo - hi - 1) / (- k) + 1 else 0).

(** [r[0:n]]: the slice of a range is a range; a negative [n] counts from
    the end. *)
Definition range_slice_to (r : range) (n : Z) : range :=
  let len := range_len r in
  let stop := if (n <? 0)%Z then Z.max (n + len) 0 else Z.min n len in
  Range (range_start r) (range_start r + stop * range_step r) (range_step r).

(** The sequences that a name such as [rc_vec] can be bound to. *)
Inductive py_seq : Type :=
  | PyList (l : list Z)
  | PyRange (r : range).

(** [v.append(x)], with the sequence [v] afterwards: [append] is a method
    of lists, and a range object has no such attribute. *)
Definition seq_append (v : py_seq) (x : Z) : result py_seq :=
  match v with
  | PyList l => Ok (PyList (l ++ [x])%list)
  | PyRange _ => Raise AttributeError
  end.

(** An operand of [+] between lists: a range on either side is refused. *)
Definition list_operand (v : py_seq) : result (list Z) :=
  match v with
  | PyList l => Ok l
  | PyRange _ => Raise TypeError
  end.

Module Domain.

Definition _check_extent_input
    (option_vars params : list string) (size : nat) : result unit :=
  name ← py_index option_vars 0;
  if bool_decide (name ∈ params) then
    match traverse Float.py_float (tail option_vars) with
    | Ok values =>
        if negb (length values =? size)%nat
        then Raise (OptionError
               (Msg_requires_exactly name size (length (tail option_vars))))
        else Ok tt
    | Raise ValueError => Raise (OptionError Msg_int_or_float)
    | Raise e => Raise e
    end
  else Raise (OptionError (Msg_expected_parameter name)).

Definition _create_extent_dict (extent_str : string) : result extent_dict :=
  let options := tail (Str.split_on "-" (Str.strip extent_str)) in
  if negb (length options =? 2)%nat
  then Raise (OptionError (Msg_two_parameters (length options)))
  else
    let options := map Str.split options in
    o0 ← py_index options 0;
    _ ← _check_extent_input o0 ["te"; "lle"] 4;
    o1 ← py_index options 1;
    _ ← _check_extent_input o1 ["ts"; "tr"] 2;
    for_each
      (fun (extent : extent_dict) option =>
         values ← traverse Float.py_float (tail option);
         name ← py_index option 0;
         Ok (<[name := values]> extent))
      options ∅.

Definition _transform_tr (width height : float) (tr_arr : list float)
  : result (float * float * float * float) :=
  resolution_x ← py_index tr_arr 0;
  tr1 ← py_index tr_arr 1;
  let resolution_y := Float.neg tr1 in
  if Float.ltb width resolution_x || Float.ltb height resolution_y
  then Raise (OptionError (Msg_tr_too_large width height))
  else
    raster_x_size ← Float.py_div width resolution_x;
    q ← Float.py_div height resolution_y;
    let raster_y_size := Float.abs q in
    Ok (resolution_x, resolution_y, raster_x_size, raster_y_size).

Definition _transform_ts (width height : float) (ts_arr : list float)
  : result (float * float * float * float) :=
  match ts_arr with
  | [raster_x_size; raster_y_size] =>
      resolution_x ← Float.py_div width raster_x_size;
      q ← Float.py_div height raster_y_size;
      let resolution_y := Float.neg (Float.abs q) in
      Ok (resolution_x, resolution_y, raster_x_size, raster_y_size)
  | _ => Raise ValueError
  end.

Definition _get_geotransform (extent_dict : extent_dict)
  : result (list float * Z * Z) :=
  te ← getitem extent_dict "te";
  te2 ← py_index te 2;
  te0 ← py_index te 0;
  let width := Float.sub te2 te0 in
  te3 ← py_index te 3;
  te1 ← py_index te 1;
  let height := Float.sub te3 te1 in
  if Float.leb width Float.zero || Float.leb height Float.zero
  then Raise (OptionError Msg_extent_illegal)
  else
    '(resolution_x, resolution_y, raster_x_size, raster_y_size) ←
      match extent_dict !! "tr" with
      | Some tr_arr => _transform_tr width height tr_arr
      | None =>
          ts_arr ← getitem extent_dict "ts";
          _transform_ts width height ts_arr
      end;
    let coordinates :=
      [te0; resolution_x; Float.zero; te3; Float.zero; resolution_y] in
    x_size ← Float.py_int raster_x_size;
    y_size ← Float.py_int raster_y_size;
    Ok (coordinates, x_size, y_size).

Section WithTransformation.

(** [osr.CoordinateTransformation(NSR(), dstSRS).TransformPoint], which
    belongs to the geospatial library. *)
Variable TransformPoint : float -> float -> float * float * float.

(** The list that [_convert_extentDic] stores under ['te']. *)
Definition converted_te (extentDic : extent_dict) : result (list float) :=
  lle ← getitem extentDic "lle";
  lle0 ← py_index lle 0;
  lle3 ← py_index lle 3;
  let '(x1, y1, _) := TransformPoint lle0 lle3 in
  lle2 ← py_index lle 2;
  let '(x2, y2, _) := TransformPoint lle2 lle3 in
  lle1 ← py_index lle 1;
  let '(x3, y3, _) := TransformPoint lle2 lle1 in
  let '(x4, y4, _) := TransformPoint lle0 lle1 in
  let minX := Float.py_min x1 [x2; x3; x4] in
  let maxX := Float.py_max x1 [x2; x3; x4] in
  let minY := Float.py_min y1 [y2; y3; y4] in
  let maxY := Float.py_max y1 [y2; y3; y4] in
  Ok [minX; minY; maxX; maxY].

(** The dictionary is updated in place and the same object is returned. *)
Definition _convert_extentDic (extentDic : ref) (h : heap)
  : result ref * heap :=
  let d := default ∅ (h !! extentDic) in
  match converted_te d with
  | Ok te => (Ok extentDic, <[extentDic := <["te" := te]> d]> h)
  | Raise e => (Raise e, h)
  end.

(** The branch of [__init__] taken for [Domain(srs, ext)], up to the
    construction of the VRT: the result is the object kept as
    [self.extent_dict] and the arguments given to
    [VRT.from_dataset_params]. *)
Definition init_srs_ext (ext : string) (h : heap)
  : result (ref * (list float * Z * Z)) * heap :=
  match _create_extent_dict ext with
  | Raise e => (Raise e, h)
  | Ok d =>
      let r := fresh (dom h) in
      let h := <[r := d]> h in
      let '(res, h) :=
        if bool_decide ("lle" ∈ dom d) then _convert_extentDic r h
        else (Ok r, h) in
      match res with
      | Raise e => (Raise e, h)
      | Ok r' =>
          match _get_geotransform (default ∅ (h !! r')) with
          | Ok geo => (Ok (r', geo), h)
          | Raise e => (Raise e, h)
          end
      end
  end.

End WithTransformation.

(** The pixel coordinates along one side of the raster. The quotient of
    the two [int]s is a float. *)
Definition _get_row_col_vector (raster_size n_points : Z) : result py_seq :=
  q ← py_truediv raster_size n_points;
  let step := py_max_one q in
  r ← py_range 0 raster_size step;
  let rc_vec := PyRange (range_slice_to r n_points) in
  rc_vec ← seq_append rc_vec raster_size;
  Ok rc_vec.

(** The pixel coordinates around the raster: along the top, down the
    right side, back along the bottom and up the left side. *)
Definition _compound_row_col_vectors (x_size y_size : Z) (x_vec y_vec : list Z)
  : list Z * list Z :=
  let col_vec :=
    (x_vec ++ replicate (length y_vec) x_size ++ reverse x_vec
       ++ replicate (length y_vec) 0)%list in
  let row_vec :=
    (replicate (length x_vec) 0 ++ y_vec ++ replicate (length x_vec) y_size
       ++ reverse y_vec)%list in
  (col_vec, row_vec).

Section WithDataset.

(** [self.shape()]: [(RasterYSize, RasterXSize)] of the dataset. *)
Variable shape : Z * Z.

(** [self.transform_points], which belongs to the VRT. *)
Context {Points : Type}.
Variable transform_points : list Z -> list Z -> Points.

Definition get_border (nPoints : Z) : result Points :=
  let n_points := nPoints in
  let '(y_size, x_size) := shape in
  x_rc_vec ← _get_row_col_vector x_size n_points;
  y_rc_vec ← _get_row_col_vector y_size n_points;
  x_vec ← list_operand x_rc_vec;
  y_vec ← list_operand y_rc_vec;
  let '(col_vec, row_vec) :=
    _compound_row_col_vectors x_size y_size x_vec y_vec in
  Ok (transform_points col_vec row_vec).

End WithDataset.

Section WithSpatialReference.

(** [srs.GetAttrValue('unit')], [None] when the attribute is absent. *)
Variable unit : option string.

(** [self.vrt.dataset.GetGeoTransform()] *)
Variable GetGeoTransform : list float.

(** The estimate at the centre of the domain by the haversine formula,
    which is computed by the VRT and by [nansat.tools]. *)
Variable haversine_estimate : result (float * float).

(** The test [if srs.IsProjected:] looks at the method object, not at the
    result of a call, and a method object is true: only the unit decides. *)
Definition get_pixelsize_meters : result (float * float) :=
  if bool_decide (unit = Some "metre") then
    let geoTransform := GetGeoTransform in
    g1 ← py_index geoTransform 1;
    let delta_x := Float.abs g1 in
    g5 ← py_index geoTransform 5;
    let delta_y := Float.abs g5 in
    Ok (delta_x, delta_y)
  else haversine_estimate.

End WithSpatialReference.

End Domain.

(** ** Vocabulary of the statements *)

(** The option groups of an extent string: what follows each hyphen. *)
Definition groups (extent_str : string) : list string :=
  tail (Str.split_on "-" (Str.strip extent_str)).

(** A group that passes [_check_extent_input]: a name among [params]
    followed by [size] numeric tokens, whose values are [values]. *)
Definition good_group (params : list string) (size : nat)
    (option_vars : list string) (name : string) (values : list float) : Prop :=
  exists tokens,
    option_vars = name :: tokens /\ name ∈ params /\
    traverse Float.py_float tokens = Ok values /\ length values = size.

(** A group that [_check_extent_input] rejects, with the message: an option
    name outside [params], a token that is not numeric, or a number of
    values other than [size]. *)
Definition bad_group (params : list string) (size : nat)
    (option_vars : list string) (msg : option_message) : Prop :=
  exists name tokens,
    option_vars = name :: tokens /\
    (((name ∉ params) /\ msg = Msg_expected_parameter name) \/
     (name ∈ params /\
      (exists t, t ∈ tokens /\ Float.py_float t = Raise ValueError) /\
      msg = Msg_int_or_float) \/
     (name ∈ params /\
      (exists values, traverse Float.py_float tokens = Ok values) /\
      length tokens <> size /\
      msg = Msg_requires_exactly name size (length tokens))).

Inductive check_outcome (params : list string) (size : nat)
    (option_vars : list string) : result unit -> Prop :=
  | CO_empty :
      option_vars = [] ->
      check_outcome params size option_vars (Raise IndexError)
  | CO_bad msg :
      bad_group params size option_vars msg ->
      check_outcome params size option_vars (Raise (OptionError msg))
  | CO_good name values :
      good_group params size option_vars name values ->
      check_outcome params size option_vars (Ok tt).

(** Every way [_create_extent_dict] can end. *)
Inductive parse_outcome (s : string) : result extent_dict -> Prop :=
  | PO_count n :
      length (groups s) = n -> n <> 2%nat ->
      parse_outcome s (Raise (OptionError (Msg_two_parameters n)))
  | PO_first_empty g0 g1 :
      groups s = [g0; g1] -> Str.split g0 = [] ->
      parse_outcome s (Raise IndexError)
  | PO_first_bad g0 g1 msg :
      groups s = [g0; g1] ->
      bad_group ["te"; "lle"] 4 (Str.split g0) msg ->
      parse_outcome s (Raise (OptionError msg))
  | PO_second_empty g0 g1 n0 f0 :
      groups s = [g0; g1] ->
      good_group ["te"; "lle"] 4 (Str.split g0) n0 f0 ->
      Str.split g1 = [] ->
      parse_outcome s (Raise IndexError)
  | PO_second_bad g0 g1 n0 f0 msg :
      groups s = [g0; g1] ->
      good_group ["te"; "lle"] 4 (Str.split g0) n0 f0 ->
      bad_group ["ts"; "tr"] 2 (Str.split g1) msg ->
      parse_outcome s (Raise (OptionError msg))
  | PO_ok g0 g1 n0 f0 n1 f1 :
      groups s = [g0; g1] ->
      good_group ["te"; "lle"] 4 (Str.split g0) n0 f0 ->
      good_group ["ts"; "tr"] 2 (Str.split g1) n1 f1 ->
      parse_outcome s (Ok (<[n1 := f1]> (<[n0 := f0]> ∅))).

(** The resolution and size step of [_get_geotransform]. *)
Definition resolution_step (d : extent_dict) (w h : float)
  : result (float * float * float * float) :=
  match d !! "tr" with
  | Some tr_arr => Domain._transform_tr w h tr_arr
  | None => ts_arr ← getitem d "ts"; Domain._transform_ts w h ts_arr
  end.

(** The float of an integer literal. *)
Abbreviation F n := (Float.of_Z n) (only parsing).

(** Extent dictionaries with a [te] box and a [tr] or a [ts] pair. *)
Definition spec_tr (te tr : list float) : extent_dict :=
  {[ "te" := te; "tr" := tr ]}.
Definition spec_ts (te ts : list float) : extent_dict :=
  {[ "te" := te; "ts" := ts ]}.

(** An extent string in the documented format: two option names, each
    followed by its value tokens. *)
Definition extent_string (opt1 : string) (values1 : list string)
    (opt2 : string) (values2 : list string) : string :=
  "-" ++ opt1 ++ " " ++ Str.join values1 ++ " -" ++ opt2 ++ " "
    ++ Str.join values2.

(** No value of the dictionary has its sign bit set. *)
Definition no_sign_bit (d : extent_dict) : Prop :=
  forall k vs v, d !! k = Some vs -> v ∈ vs -> Float.signbit v = false.

(** A group with an option name that [_check_extent_input] rejects: the
    name is not among [params], or a value token is not numeric, or the
    number of value tokens is not [size]. *)
Definition group_fails (params : list string) (size : nat)
    (option_vars : list string) : Prop :=
  exists name tokens,
    option_vars = name :: tokens /\
    (name ∉ params \/
     (exists t, t ∈ tokens /\ Float.py_float t = Raise ValueError) \/
     length tokens <> size).

(** The conditions under which the parser raises [OptionError], with the
    message: a number of groups other than 2; or a first group rejected as
    a te/lle group; or, the first group being good, a second group
    rejected as a ts/tr group. *)
Definition parser_rejects (s : string) (msg : option_message) : Prop :=
  (length (groups s) <> 2%nat /\
   msg = Msg_two_parameters (length (groups s))) \/
  exists g0 g1,
    groups s = [g0; g1] /\
    (bad_group ["te"; "lle"] 4 (Str.split g0) msg \/
     (exists n0 f0, good_group ["te"; "lle"] 4 (Str.split g0) n0 f0) /\
     bad_group ["ts"; "tr"] 2 (Str.split g1) msg).

(** The conditions under which the derivation raises [OptionError] on the
    box [te = [x0, y0, x1, y1]], with the message: the comparison
    [width <= 0 or height <= 0] holds (it is false of a NaN); or, that
    comparison being false and the dictionary having a tr pair,
    [width < tr[0] or height < -tr[1]] holds. *)
Definition derive_rejects (d : extent_dict) (x0 y0 x1 y1 : float)
    (msg : option_message) : Prop :=
  let w := Float.sub x1 x0 in
  let h := Float.sub y1 y0 in
  (Float.leb w Float.zero || Float.leb h Float.zero = true /\
   msg = Msg_extent_illegal) \/
  (Float.leb w Float.zero || Float.leb h Float.zero = false /\
   exists a b,
     d !! "tr" = Some [a; b] /\
     Float.ltb w a || Float.ltb h (Float.neg b) = true /\
     msg = Msg_tr_too_large w h).

(** The exceptions of the divisions and of [int]. *)
Definition arithmetic_error (e : exn) : Prop :=
  e = ZeroDivisionError \/ e = OverflowError \/ e = ValueError.

(** The invariant of the parsed dictionary: two keys, one of te/lle and
    one of ts/tr; and all values finite. *)
Definition two_keys (d : extent_dict) : Prop :=
  exists k1 k2,
    k1 ∈ ["te"; "lle"] /\ k2 ∈ ["ts"; "tr"] /\
    dom d = ({[ k1; k2 ]} : gset string).

Definition all_finite (d : extent_dict) : Prop :=
  forall k vs v, d !! k = Some vs -> v ∈ vs -> Float.is_finite v = true.

(** A coordinate transformation that leaves the point where it is. *)
Definition identity_transform (x y : float) : float * float * float :=
  (x, y, Float.zero).

(** An lle string, and the dictionary the parser builds from it. *)
Definition ext_lle : string := "-lle 10 30 55 60 -ts 1000 1000".
Definition dict_lle : extent_dict :=
  {[ "lle" := [F 10; F 30; F 55; F 60]; "ts" := [F 1000; F 1000] ]}.

(** A token of an extent string: not empty, without whitespace and
    without hyphen. *)
Fixpoint no_space (t : string) : bool :=
  match t with
  | EmptyString => true
  | String c t' => negb (Str.isspace c) && no_space t'
  end.

Definition plain_token (t : string) : Prop :=
  t <> "" /\ no_space t = true /\ Str.count "-" t = 0%nat.

(** The two strings of the class documentation, and the second one with
    its groups exchanged. *)
Definition ext_te_tr : string := "-te 100 2000 300 10000 -tr 300 200".
Definition ext_tr_te : string := "-tr 300 200 -te 100 2000 300 10000".
Definition ext_lle_ts : string := "-lle -10 30 55 60 -ts 1000 1000".

(** * Properties *)

Example strip_ex : Str.strip "  -te 1 2 " = "-te 1 2".
Proof. reflexivity. Qed.
Example split_on_ex :
  Str.split_on "-" "-te 1 2 -ts 3" = [""; "te 1 2 "; "ts 3"].
Proof. reflexivity. Qed.
Example split_ex : Str.split " te  1 2 " = ["te"; "1"; "2"].
Proof. reflexivity. Qed.

(** ** Facts about the float operations *)

Section FloatFacts.

Implicit Types x y : float.

Lemma ltb_zero_inv x :
  Float.ltb Float.zero x = true ->
  x = S754_infinity false \/ exists m e, x = S754_finite false m e.
Proof.
  destruct x as [s | [] | | [] m e]; cbn; try discriminate; eauto.
Qed.

Lemma ltb_zero_not_leb x :
  Float.ltb Float.zero x = true -> Float.leb x Float.zero = false.
Proof.
  intros [-> | (m & e & ->)]%ltb_zero_inv; reflexivity.
Qed.

(** Rounding keeps the sign it is given. *)
Lemma binary_round_aux_sign p em sx mx ex lx :
  Float.signbit (binary_round_aux p em sx mx ex lx) = true -> sx = true.
Proof.
  unfold binary_round_aux.
  destruct (shr_fexp p em mx ex lx) as [mrs e'].
  destruct (shr_fexp p em _ e' loc_Exact) as [mrs2 e2].
  destruct (shr_m mrs2); cbn; try discriminate; auto.
  destruct (Z.leb _ _); cbn; auto.
Qed.

Lemma div_signbit x y :
  Float.signbit (Float.div x y) = true ->
  xorb (Float.signbit x) (Float.signbit y) = true.
Proof.
  destruct x as [sx | sx | | sx mx ex], y as [sy | sy | | sy my ey];
    cbn; try discriminate; auto.
  destruct (SFdiv_core_binary _ _ _ _ _ _) as [[mz ez] lz].
  apply binary_round_aux_sign.
Qed.

Lemma of_Z_signbit n : 0 <= n -> Float.signbit (Float.of_Z n) = false.
Proof.
  intros Hn. destruct n as [| p | p]; [reflexivity | | lia].
  unfold Float.of_Z, binary_normalize, binary_round.
  destruct (shl_align _ _ _) as [mz ez].
  apply not_true_is_false. intros H%binary_round_aux_sign. discriminate.
Qed.

Lemma abs_signbit x : Float.signbit (Float.abs x) = false.
Proof. destruct x; reflexivity. Qed.

Lemma neg_abs_not_positive x :
  Float.ltb Float.zero (Float.neg (Float.abs x)) = false.
Proof. destruct x; reflexivity. Qed.

Lemma neg_abs_nonpositive x :
  x <> Float.nan -> Float.leb (Float.neg (Float.abs x)) Float.zero = true.
Proof. destruct x; intros H; try reflexivity. now destruct H. Qed.

Lemma py_int_nonneg x n :
  Float.signbit x = false -> Float.py_int x = Ok n -> 0 <= n.
Proof.
  destruct x as [s | s | | s m e]; cbn; intros Hs H; inversion H; subst.
  - lia.
  - cbn. apply Z.shiftl_nonneg. lia.
Qed.

(** [int] truncates toward zero: [Z.quot] is the truncating quotient. *)
Lemma py_int_truncates s m e :
  Float.py_int (S754_finite s m e) =
    Ok (if (0 <=? e)%Z then cond_Zopp s (Z.pos m) * 2 ^ e
        else Z.quot (cond_Zopp s (Z.pos m)) (2 ^ (- e))).
Proof.
  cbn. f_equal. destruct (Z.leb_spec 0 e) as [He | He].
  - rewrite Z.shiftl_mul_pow2 by lia. destruct s; cbn; lia.
  - rewrite <- (Z.opp_involutive e) at 1.
    rewrite Z.shiftl_opp_r, Z.shiftr_div_pow2 by lia.
    assert (0 < 2 ^ (- e)) by (apply Z.pow_pos_nonneg; lia).
    destruct s; cbn [cond_Zopp].
    + rewrite Z.quot_opp_l by lia.
      rewrite Z.quot_div_nonneg by lia. reflexivity.
    + rewrite Z.quot_div_nonneg by lia. reflexivity.
Qed.

Lemma py_div_Ok x y z :
  Float.py_div x y = Ok z <-> Float.is_zero y = false /\ z = Float.div x y.
Proof.
  unfold Float.py_div. destruct (Float.is_zero y); split.
  - discriminate.
  - intros [? _]; discriminate.
  - intros H; inversion H; auto.
  - intros [_ ->]; reflexivity.
Qed.

Lemma py_div_zero x y :
  Float.is_zero y = true -> Float.py_div x y = Raise ZeroDivisionError.
Proof. unfold Float.py_div. intros ->. reflexivity. Qed.

End FloatFacts.

(** ** Facts about the string operations *)

Section StringFacts.

Implicit Types (c a : ascii) (s t : string).

Lemma split_on_length c s :
  length (Str.split_on c s) = S (Str.count c s).
Proof.
  induction s as [| a s IH]; cbn; [reflexivity |].
  destruct (Ascii.eqb a c); cbn; [by rewrite IH |].
  destruct (Str.split_on c s); cbn in *; lia.
Qed.

Lemma split_on_fields c s :
  Forall (fun t => Str.count c t = 0%nat) (Str.split_on c s).
Proof.
  induction s as [| a s IH]; cbn; [by repeat constructor |].
  destruct (Ascii.eqb a c) eqn:E; [by constructor |].
  destruct (Str.split_on c s) as [| f fs].
  - repeat constructor. cbn. by rewrite E.
  - inversion IH; subst. constructor; [| done]. cbn. rewrite E. lia.
Qed.

Lemma split_tokens c s :
  Forall (fun t => (Str.count c t <= Str.count c s)%nat) (Str.split s).
Proof.
  induction s as [| a s IH]; cbn; [constructor |].
  assert (Hw : Forall (fun t => (Str.count c t <=
                (if Ascii.eqb a c then 1 else 0) + Str.count c s)%nat)
                (Str.split s)).
  { eapply Forall_impl; [exact IH |]. cbn. intros; lia. }
  destruct (Str.isspace a); [done |].
  destruct s as [| a' s'].
  - constructor; [cbn; lia | constructor].
  - destruct (Str.isspace a').
    + constructor; [cbn; lia | done].
    + destruct (Str.split (String a' s')) as [| f fs].
      * constructor; [cbn; lia | constructor].
      * inversion IH; subst. inversion Hw; subst.
        constructor; [| done]. cbn in *. lia.
Qed.

Lemma isspace_neq a c :
  Str.isspace a = true -> Str.isspace c = false -> Ascii.eqb a c = false.
Proof.
  intros Ha Hc. destruct (Ascii.eqb_spec a c); [congruence | reflexivity].
Qed.

Lemma count_lstrip c s :
  Str.isspace c = false -> Str.count c (Str.lstrip s) = Str.count c s.
Proof.
  intros Hc. induction s as [| a s IH]; cbn; [reflexivity |].
  destruct (Str.isspace a) eqn:Ha; [| reflexivity].
  by rewrite IH, (isspace_neq a c).
Qed.

Lemma count_rstrip c s :
  Str.isspace c = false -> Str.count c (Str.rstrip s) = Str.count c s.
Proof.
  intros Hc. induction s as [| a s IH]; cbn; [reflexivity |].
  destruct (Str.rstrip s) as [| a0 s0]; cbn in *.
  - destruct (Str.isspace a) eqn:Ha; cbn.
    + rewrite (isspace_neq a c) by done. lia.
    + lia.
  - lia.
Qed.

Lemma count_strip c s :
  Str.isspace c = false -> Str.count c (Str.strip s) = Str.count c s.
Proof.
  intros Hc. unfold Str.strip. by rewrite count_rstrip, count_lstrip.
Qed.

Lemma count_float_lstrip c s :
  Float.isspace c = false -> Str.count c (Float.lstrip s) = Str.count c s.
Proof.
  intros Hc. induction s as [| a s IH]; cbn; [reflexivity |].
  destruct (Float.isspace a) eqn:Ha; [| reflexivity].
  rewrite IH. destruct (Ascii.eqb_spec a c); [congruence | reflexivity].
Qed.

Lemma count_float_rstrip c s :
  Float.isspace c = false -> Str.count c (Float.rstrip s) = Str.count c s.
Proof.
  intros Hc. induction s as [| a s IH]; cbn; [reflexivity |].
  destruct (Float.rstrip s) as [| a0 s0]; cbn in *; [| lia].
  destruct (Float.isspace a) eqn:Ha; cbn; [| lia].
  destruct (Ascii.eqb_spec a c); [congruence | lia].
Qed.

Lemma count_app c s t :
  Str.count c (s ++ t) = (Str.count c s + Str.count c t)%nat.
Proof.
  induction s as [| a s IH]; [reflexivity |].
  change (String a s ++ t) with (String a (s ++ t)).
  cbn [Str.count]. rewrite IH. lia.
Qed.

Lemma count_join c l :
  Str.isspace c = false ->
  Str.count c (Str.join l) = list_sum (map (Str.count c) l).
Proof.
  intros Hc. induction l as [| x l IH]; [reflexivity |].
  destruct l as [| y l]; [cbn; lia |].
  change (Str.join (x :: y :: l)) with (x ++ " " ++ Str.join (y :: l)).
  rewrite !count_app, IH. cbn [map list_sum Str.count].
  rewrite (isspace_neq " " c) by done. cbn. lia.
Qed.

End StringFacts.

(** ** The outcomes of the parser *)

Section ParserFacts.

Lemma py_float_cases s :
  (exists x, Float.py_float s = Ok x) \/ Float.py_float s = Raise ValueError.
Proof.
  unfold Float.py_float.
  destruct (Float.sign _) as [sg l].
  destruct (Float.absfloatvalue l); eauto.
Qed.

Lemma traverse_length {A B} (f : A -> result B) l bs :
  traverse f l = Ok bs -> length bs = length l.
Proof.
  revert bs. induction l as [| a l IH]; cbn; intros bs H.
  - by inversion H.
  - destruct (f a); [| discriminate]. cbn in H.
    destruct (traverse f l); [| discriminate]. inversion H; subst.
    cbn. f_equal. by apply IH.
Qed.

Lemma traverse_Forall2 {A B} (f : A -> result B) l bs :
  traverse f l = Ok bs -> Forall2 (fun a b => f a = Ok b) l bs.
Proof.
  revert bs. induction l as [| a l IH]; cbn; intros bs H.
  - inversion H. constructor.
  - destruct (f a) eqn:E; [| discriminate]. cbn in H.
    destruct (traverse f l); [| discriminate]. inversion H; subst.
    constructor; auto.
Qed.

Lemma traverse_py_float_cases tokens :
  (exists values, traverse Float.py_float tokens = Ok values) \/
  (traverse Float.py_float tokens = Raise ValueError /\
   exists t, t ∈ tokens /\ Float.py_float t = Raise ValueError).
Proof.
  induction tokens as [| t l IH]; cbn; [eauto |].
  destruct (py_float_cases t) as [[x ->] | E]; cbn.
  - destruct IH as [[vs ->] | [-> (t' & Ht' & E')]]; cbn; [eauto |].
    right. split; [done |]. exists t'. split; [by constructor | done].
  - rewrite E. right. split; [done |]. exists t. split; [constructor | done].
Qed.

Lemma check_outcome_holds option_vars params size :
  check_outcome params size option_vars
    (Domain._check_extent_input option_vars params size).
Proof.
  destruct option_vars as [| name tokens]; [by constructor |].
  unfold Domain._check_extent_input. cbn.
  case_bool_decide as Hin.
  - destruct (traverse_py_float_cases tokens)
      as [[values E] | [E (t & Ht & Et)]]; rewrite E.
    + pose proof (traverse_length _ _ _ E) as Hlen.
      destruct (Nat.eqb_spec (length values) size) as [Hs | Hs]; cbn.
      * apply (CO_good _ _ _ name values). by exists tokens.
      * apply CO_bad. exists name, tokens. split; [done |].
        right; right. repeat split; eauto; congruence.
    + apply CO_bad. exists name, tokens. split; [done |].
      right; left. eauto.
  - apply CO_bad. exists name, tokens. split; [done |]. left. done.
Qed.

Lemma create_unfold s :
  Domain._create_extent_dict s =
    match groups s with
    | [g0; g1] =>
        _ ← Domain._check_extent_input (Str.split g0) ["te"; "lle"] 4;
        _ ← Domain._check_extent_input (Str.split g1) ["ts"; "tr"] 2;
        for_each
          (fun (extent : extent_dict) option =>
             values ← traverse Float.py_float (tail option);
             name ← py_index option 0;
             Ok (<[name := values]> extent))
          [Str.split g0; Str.split g1] ∅
    | gs => Raise (OptionError (Msg_two_parameters (length gs)))
    end.
Proof.
  unfold Domain._create_extent_dict. fold (groups s).
  destruct (groups s) as [| g0 [| g1 [| g2 gs]]]; reflexivity.
Qed.

Theorem parse_outcome_holds s : parse_outcome s (Domain._create_extent_dict s).
Proof.
  rewrite create_unfold.
  destruct (groups s) as [| g0 [| g1 [| g2 gs]]] eqn:G;
    try (apply PO_count; [by rewrite G | cbn; lia]).
  pose proof (check_outcome_holds (Str.split g0) ["te"; "lle"] 4) as H0.
  inversion H0 as [E0 R0 | msg Hb R0 | n0 f0 Hg0 R0]; cbn.
  - eapply PO_first_empty; eauto.
  - eapply PO_first_bad; eauto.
  - pose proof (check_outcome_holds (Str.split g1) ["ts"; "tr"] 2) as H1.
    inversion H1 as [E1 R1 | msg Hb R1 | n1 f1 Hg1 R1]; cbn.
    + eapply PO_second_empty; eauto.
    + eapply PO_second_bad; eauto.
    + pose proof Hg0 as (t0 & E0 & _ & T0 & _).
      pose proof Hg1 as (t1 & E1 & _ & T1 & _).
      rewrite E0, E1. cbn. rewrite T0. cbn. rewrite T1. cbn.
      eapply PO_ok; eauto.
Qed.

End ParserFacts.

(** ** The order of the option groups *)

Lemma create_first_name s g0 g1 name tokens :
  groups s = [g0; g1] -> Str.split g0 = name :: tokens ->
  name ∉ ["te"; "lle"] ->
  Domain._create_extent_dict s =
    Raise (OptionError (Msg_expected_parameter name)).
Proof.
  intros G E Hn. rewrite create_unfold, G, E.
  unfold Domain._check_extent_input. cbn.
  by rewrite bool_decide_eq_false_2.
Qed.

Lemma create_Ok_inv s d :
  Domain._create_extent_dict s = Ok d ->
  exists g0 g1 n0 f0 n1 f1,
    groups s = [g0; g1] /\
    good_group ["te"; "lle"] 4 (Str.split g0) n0 f0 /\
    good_group ["ts"; "tr"] 2 (Str.split g1) n1 f1 /\
    d = <[n1 := f1]> (<[n0 := f0]> ∅).
Proof.
  intros E. pose proof (parse_outcome_holds s) as H. rewrite E in H.
  inversion H; subst. eauto 10.
Qed.

(** C1, as stated, fails: with the ts/tr group first the string of the class
    documentation is rejected, while with the te/lle group first it is
    parsed. *)
Lemma C1_order_counterexample :
  Domain._create_extent_dict ext_tr_te =
    Raise (OptionError (Msg_expected_parameter "tr")) /\
  Domain._create_extent_dict ext_tr_te <> Domain._create_extent_dict ext_te_tr.
Proof. split; [vm_compute; reflexivity | vm_compute; discriminate]. Qed.

(** C1, amended: the groups are classified by position. The string with the
    te/lle group first gives [{te: [100,2000,300,10000], tr: [300,200]}];
    every accepted string has a te/lle group first and a ts/tr group
    second; a string whose first group has another name, [ts] and [tr]
    included, is rejected with the message naming it. *)
Theorem C1_groups_by_position :
  Domain._create_extent_dict ext_te_tr =
    Ok {[ "te" := [F 100; F 2000; F 300; F 10000]; "tr" := [F 300; F 200] ]} /\
  (forall s d, Domain._create_extent_dict s = Ok d ->
     exists g0 g1 n0 f0 n1 f1,
       groups s = [g0; g1] /\
       good_group ["te"; "lle"] 4 (Str.split g0) n0 f0 /\
       good_group ["ts"; "tr"] 2 (Str.split g1) n1 f1 /\
       d = <[n1 := f1]> (<[n0 := f0]> ∅)) /\
  (forall s g0 g1 name tokens,
     groups s = [g0; g1] -> Str.split g0 = name :: tokens ->
     name = "ts" \/ name = "tr" \/ name ∉ ["te"; "lle"] ->
     Domain._create_extent_dict s =
       Raise (OptionError (Msg_expected_parameter name))).
Proof.
  split; [vm_compute; reflexivity |].
  split; [exact create_Ok_inv |].
  intros s g0 g1 name tokens G E Hn.
  apply (create_first_name s g0 g1 name tokens G E).
  destruct Hn as [-> | [-> | Hn]]; [| | done];
    intros H; repeat (apply elem_of_cons in H as [H | H]; [discriminate |]);
    by apply elem_of_nil in H.
Qed.

(** The string with the tr group first, rejected by its first group. *)
Lemma C1_groups_by_position_witness :
  Domain._create_extent_dict ext_tr_te =
    Raise (OptionError (Msg_expected_parameter "tr")).
Proof.
  apply (proj2 (proj2 C1_groups_by_position)
           ext_tr_te "tr 300 200 " "te 100 2000 300 10000" "tr" ["300"; "200"]).
  - reflexivity.
  - reflexivity.
  - right; left; reflexivity.
Defined.

(** ** The outcomes of the derivation *)

Section DeriveFacts.

Lemma bind_Ok_inv {A B} (m : result A) (k : A -> result B) b :
  m ≫= k = Ok b -> exists a, m = Ok a /\ k a = Ok b.
Proof. destruct m as [a | e]; cbn; [eauto | discriminate]. Qed.

Lemma py_index_Ok {A} (l : list A) i a : py_index l i = Ok a <-> l !! i = Some a.
Proof.
  unfold py_index. destruct (l !! i); split; intros H; inversion H; auto.
Qed.

Lemma getitem_Ok d k v : getitem d k = Ok v <-> d !! k = Some v.
Proof.
  unfold getitem. destruct (d !! k); split; intros H; inversion H; auto.
Qed.

Lemma transform_tr_Ok_inv w h tr_arr rx ry sx sy :
  Domain._transform_tr w h tr_arr = Ok (rx, ry, sx, sy) ->
  exists a b,
    tr_arr !! 0%nat = Some a /\ tr_arr !! 1%nat = Some b /\
    rx = a /\ ry = Float.neg b /\
    Float.ltb w a = false /\ Float.ltb h (Float.neg b) = false /\
    Float.is_zero a = false /\ Float.is_zero (Float.neg b) = false /\
    sx = Float.div w a /\ sy = Float.abs (Float.div h (Float.neg b)).
Proof.
  unfold Domain._transform_tr. intros H.
  apply bind_Ok_inv in H as (a & Ea%py_index_Ok & H).
  apply bind_Ok_inv in H as (b & Eb%py_index_Ok & H).
  destruct (Float.ltb w a) eqn:Lw; [discriminate |].
  destruct (Float.ltb h (Float.neg b)) eqn:Lh; [discriminate |].
  cbn [orb] in H.
  apply bind_Ok_inv in H as (qx & [Za ->]%py_div_Ok & H).
  apply bind_Ok_inv in H as (qy & [Zb ->]%py_div_Ok & H).
  inversion H; subst. eexists _, _. repeat split; eauto.
Qed.

Lemma transform_ts_Ok_inv w h ts_arr rx ry sx sy :
  Domain._transform_ts w h ts_arr = Ok (rx, ry, sx, sy) ->
  exists a b,
    ts_arr = [a; b] /\
    Float.is_zero a = false /\ Float.is_zero b = false /\
    rx = Float.div w a /\ ry = Float.neg (Float.abs (Float.div h b)) /\
    sx = a /\ sy = b.
Proof.
  unfold Domain._transform_ts. intros H.
  destruct ts_arr as [| a [| b [| c l]]]; try discriminate.
  apply bind_Ok_inv in H as (qx & [Za ->]%py_div_Ok & H).
  apply bind_Ok_inv in H as (qy & [Zb ->]%py_div_Ok & H).
  inversion H; subst. eexists _, _. repeat split; eauto.
Qed.

Lemma geotransform_unfold d x0 y0 x1 y1 rest :
  d !! "te" = Some (x0 :: y0 :: x1 :: y1 :: rest) ->
  Domain._get_geotransform d =
    let w := Float.sub x1 x0 in
    let h := Float.sub y1 y0 in
    if Float.leb w Float.zero || Float.leb h Float.zero
    then Raise (OptionError Msg_extent_illegal)
    else
      '(rx, ry, sx, sy) ← resolution_step d w h;
      nx ← Float.py_int sx;
      ny ← Float.py_int sy;
      Ok ([x0; rx; Float.zero; y1; Float.zero; ry], nx, ny).
Proof.
  intros E. unfold Domain._get_geotransform, getitem. rewrite E. reflexivity.
Qed.

Lemma geotransform_Ok_inv d c nx ny :
  Domain._get_geotransform d = Ok (c, nx, ny) ->
  exists x0 y0 x1 y1 rest rx ry sx sy,
    d !! "te" = Some (x0 :: y0 :: x1 :: y1 :: rest) /\
    Float.leb (Float.sub x1 x0) Float.zero = false /\
    Float.leb (Float.sub y1 y0) Float.zero = false /\
    resolution_step d (Float.sub x1 x0) (Float.sub y1 y0)
      = Ok (rx, ry, sx, sy) /\
    c = [x0; rx; Float.zero; y1; Float.zero; ry] /\
    Float.py_int sx = Ok nx /\ Float.py_int sy = Ok ny.
Proof.
  intros H. pose proof H as H'. unfold Domain._get_geotransform in H'.
  apply bind_Ok_inv in H' as (te & Ete%getitem_Ok & H').
  destruct te as [| x0 [| y0 [| x1 [| y1 rest]]]]; try discriminate.
  clear H'. rewrite (geotransform_unfold d x0 y0 x1 y1 rest Ete) in H.
  cbn zeta in H.
  destruct (Float.leb (Float.sub x1 x0) Float.zero) eqn:Lw; [discriminate |].
  destruct (Float.leb (Float.sub y1 y0) Float.zero) eqn:Lh; [discriminate |].
  cbn [orb] in H.
  apply bind_Ok_inv in H as ([[[rx ry] sx] sy] & Er & H).
  apply bind_Ok_inv in H as (nx' & Ex & H).
  apply bind_Ok_inv in H as (ny' & Ey & H).
  inversion H; subst.
  exists x0, y0, x1, y1, rest, rx, ry, sx, sy. repeat split; auto.
Qed.

End DeriveFacts.

(** ** The sign of the pixel height *)

Lemma leb_neg_zero b :
  Float.leb (Float.neg b) Float.zero = Float.leb Float.zero b.
Proof. destruct b as [[] | [] | | [] m e]; reflexivity. Qed.

(** C2, as stated, fails: a [tr] pair whose second value is negative gives a
    positive sixth coefficient. *)
Lemma C2_positive_pixel_height :
  Domain._get_geotransform (spec_tr [F 0; F 0; F 100; F 50] [F 10; F (-10)]) =
    Ok ([F 0; F 10; Float.zero; F 50; Float.zero; F 10], 10, 5) /\
  Float.leb (F 10) Float.zero = false /\
  Float.ltb Float.zero (F 10) = true.
Proof. repeat split; vm_compute; reflexivity. Qed.

(** C2, amended: on success the transform has six coefficients. In the tr
    branch the sixth is [-tr[1]], so it is non-positive exactly when
    [tr[1] >= 0]. In the ts branch it is [-abs(height / ts[1])], which is
    never positive, and is non-positive unless it is NaN. *)
Theorem C2_sixth_coefficient d c nx ny :
  Domain._get_geotransform d = Ok (c, nx, ny) ->
  exists c5,
    c !! 5%nat = Some c5 /\ length c = 6%nat /\
    match d !! "tr" with
    | Some tr_arr =>
        exists b,
          tr_arr !! 1%nat = Some b /\ c5 = Float.neg b /\
          Float.leb c5 Float.zero = Float.leb Float.zero b
    | None =>
        exists x0 y0 x1 y1 rest a b,
          d !! "te" = Some (x0 :: y0 :: x1 :: y1 :: rest) /\
          d !! "ts" = Some [a; b] /\
          c5 = Float.neg (Float.abs (Float.div (Float.sub y1 y0) b)) /\
          Float.ltb Float.zero c5 = false /\
          (Float.div (Float.sub y1 y0) b <> Float.nan ->
           Float.leb c5 Float.zero = true)
    end.
Proof.
  intros H.
  apply geotransform_Ok_inv in H
    as (x0 & y0 & x1 & y1 & rest & rx & ry & sx & sy
        & Ete & Lw & Lh & Er & -> & Ex & Ey).
  exists ry. split; [reflexivity |]. split; [reflexivity |].
  unfold resolution_step in Er. destruct (d !! "tr") as [tr_arr |].
  - apply transform_tr_Ok_inv in Er
      as (a & b & _ & Eb & _ & -> & _). exists b.
    split; [done |]. split; [done |]. apply leb_neg_zero.
  - apply bind_Ok_inv in Er as (ts_arr & Ets%getitem_Ok & Er).
    apply transform_ts_Ok_inv in Er
      as (a & b & -> & _ & _ & _ & -> & _).
    exists x0, y0, x1, y1, rest, a, b.
    split; [done |]. split; [done |]. split; [done |].
    split; [apply neg_abs_not_positive | apply neg_abs_nonpositive].
Qed.

(** The box [0,0,100,50] with tr = [10,-10]. *)
Lemma C2_sixth_coefficient_witness :
  exists c5,
    [F 0; F 10; Float.zero; F 50; Float.zero; F 10] !! 5%nat = Some c5 /\
    length [F 0; F 10; Float.zero; F 50; Float.zero; F 10] = 6%nat /\
    match spec_tr [F 0; F 0; F 100; F 50] [F 10; F (-10)] !! "tr" with
    | Some tr_arr =>
        exists b,
          tr_arr !! 1%nat = Some b /\ c5 = Float.neg b /\
          Float.leb c5 Float.zero = Float.leb Float.zero b
    | None =>
        exists x0 y0 x1 y1 rest a b,
          spec_tr [F 0; F 0; F 100; F 50] [F 10; F (-10)] !! "te"
            = Some (x0 :: y0 :: x1 :: y1 :: rest) /\
          spec_tr [F 0; F 0; F 100; F 50] [F 10; F (-10)] !! "ts"
            = Some [a; b] /\
          c5 = Float.neg (Float.abs (Float.div (Float.sub y1 y0) b)) /\
          Float.ltb Float.zero c5 = false /\
          (Float.div (Float.sub y1 y0) b <> Float.nan ->
           Float.leb c5 Float.zero = true)
    end.
Proof.
  apply (C2_sixth_coefficient
           (spec_tr [F 0; F 0; F 100; F 50] [F 10; F (-10)])
           [F 0; F 10; Float.zero; F 50; Float.zero; F 10] 10 5).
  vm_compute. reflexivity.
Defined.

(** With a parsed [nan] the ts branch succeeds with a NaN pixel height. *)
Example ts_branch_nan_height :
  (d ← Domain._create_extent_dict "-te 0 0 1 nan -ts 10 10";
   Domain._get_geotransform d) =
    Ok ([F 0; Float.div (F 1) (F 10); Float.zero; Float.nan; Float.zero;
         Float.nan], 10, 10).
Proof. vm_compute. reflexivity. Qed.

(** ** The tr branch *)

Lemma py_int_not_OptionError x msg :
  Float.py_int x <> Raise (OptionError msg).
Proof. destruct x; discriminate. Qed.

Lemma py_div_not_OptionError x y msg :
  Float.py_div x y <> Raise (OptionError msg).
Proof. unfold Float.py_div. destruct (Float.is_zero y); discriminate. Qed.

(** [H] says that a chain of binds raised [OptionError], while by [D] its
    first step raised; that step is a division or an [int]. *)
Ltac step_bind H := cbn [mbind result_bind] in H.

Ltac raise_absurd H D :=
  step_bind H; inversion H; subst;
  solve [ eapply py_div_not_OptionError; exact D
        | eapply py_int_not_OptionError; exact D ].

Lemma geotransform_tr d x0 y0 x1 y1 a b :
  d !! "te" = Some [x0; y0; x1; y1] -> d !! "tr" = Some [a; b] ->
  Float.leb (Float.sub x1 x0) Float.zero = false ->
  Float.leb (Float.sub y1 y0) Float.zero = false ->
  Domain._get_geotransform d =
    if Float.ltb (Float.sub x1 x0) a
       || Float.ltb (Float.sub y1 y0) (Float.neg b)
    then Raise (OptionError
           (Msg_tr_too_large (Float.sub x1 x0) (Float.sub y1 y0)))
    else
      sx ← Float.py_div (Float.sub x1 x0) a;
      q ← Float.py_div (Float.sub y1 y0) (Float.neg b);
      nx ← Float.py_int sx;
      ny ← Float.py_int (Float.abs q);
      Ok ([x0; a; Float.zero; y1; Float.zero; Float.neg b], nx, ny).
Proof.
  intros Ete Etr Lw Lh.
  rewrite (geotransform_unfold d x0 y0 x1 y1 [] Ete). cbn zeta.
  rewrite Lw, Lh. cbn [orb]. unfold resolution_step. rewrite Etr.
  unfold Domain._transform_tr. cbn.
  destruct (Float.ltb (Float.sub x1 x0) a || Float.ltb _ _); [reflexivity |].
  destruct (Float.py_div (Float.sub x1 x0) a); [| reflexivity]. cbn.
  destruct (Float.py_div (Float.sub y1 y0) (Float.neg b)); reflexivity.
Qed.

(** C3: in the tr branch, for a box of positive width and height, the
    resolutions are [tr[0]] and [-tr[1]]; [OptionError] is raised exactly
    when [width < resolutionX or height < resolutionY], with the negated
    [resolutionY]; otherwise the sizes are [int(width / resolutionX)] and
    [int(abs(height / resolutionY))], the divisions being Python's. For
    te=[0,0,100,50] and tr=[10,10] the result is the transform
    (0,10,0,50,0.0,-10) with size (10,5). *)
Theorem C3_tr_branch :
  (forall d x0 y0 x1 y1 a b,
     d !! "te" = Some [x0; y0; x1; y1] -> d !! "tr" = Some [a; b] ->
     Float.ltb Float.zero (Float.sub x1 x0) = true ->
     Float.ltb Float.zero (Float.sub y1 y0) = true ->
     (is_OptionError (Domain._get_geotransform d) <->
      Float.ltb (Float.sub x1 x0) a
      || Float.ltb (Float.sub y1 y0) (Float.neg b) = true) /\
     (Float.ltb (Float.sub x1 x0) a
      || Float.ltb (Float.sub y1 y0) (Float.neg b) = false ->
      Domain._get_geotransform d =
        (sx ← Float.py_div (Float.sub x1 x0) a;
         q ← Float.py_div (Float.sub y1 y0) (Float.neg b);
         nx ← Float.py_int sx;
         ny ← Float.py_int (Float.abs q);
         Ok ([x0; a; Float.zero; y1; Float.zero; Float.neg b], nx, ny)))) /\
  Domain._get_geotransform (spec_tr [F 0; F 0; F 100; F 50] [F 10; F 10]) =
    Ok ([F 0; F 10; F 0; F 50; Float.zero; F (-10)], 10, 5).
Proof.
  split; [| vm_compute; reflexivity].
  intros d x0 y0 x1 y1 a b Ete Etr Hw%ltb_zero_not_leb Hh%ltb_zero_not_leb.
  rewrite (geotransform_tr d x0 y0 x1 y1 a b Ete Etr Hw Hh).
  destruct (Float.ltb (Float.sub x1 x0) a || Float.ltb _ _) eqn:G.
  - split; [| discriminate]. split; [done | by eexists].
  - split; [| done]. split; [| discriminate].
    intros [msg H]. exfalso.
    destruct (Float.py_div (Float.sub x1 x0) a) as [sx |] eqn:Dx;
      [step_bind H | raise_absurd H Dx].
    destruct (Float.py_div (Float.sub y1 y0) (Float.neg b)) as [q |] eqn:Dy;
      [step_bind H | raise_absurd H Dy].
    destruct (Float.py_int sx) eqn:Ix; [step_bind H | raise_absurd H Ix].
    destruct (Float.py_int (Float.abs q)) eqn:Iy;
      [step_bind H | raise_absurd H Iy].
    discriminate.
Qed.

(** The box [0,0,100,50] with tr = [10,10]. *)
Lemma C3_tr_branch_witness :
  Domain._get_geotransform (spec_tr [F 0; F 0; F 100; F 50] [F 10; F 10]) =
    (sx ← Float.py_div (Float.sub (F 100) (F 0)) (F 10);
     q ← Float.py_div (Float.sub (F 50) (F 0)) (Float.neg (F 10));
     nx ← Float.py_int sx;
     ny ← Float.py_int (Float.abs q);
     Ok ([F 0; F 10; Float.zero; F 50; Float.zero; Float.neg (F 10)], nx, ny)).
Proof.
  apply (proj1 C3_tr_branch
           (spec_tr [F 0; F 0; F 100; F 50] [F 10; F 10])
           (F 0) (F 0) (F 100) (F 50) (F 10) (F 10));
    vm_compute; reflexivity.
Defined.

(** C8: for a positive height and a positive [tr[1]] the comparison
    [height < resolutionY] is false, so the tr branch raises [OptionError]
    only when [width < resolutionX]; with height 5 and resolutionY -10
    nothing is raised. *)
Theorem C8_height_guard_never_fires :
  (forall w h a b,
     Float.ltb Float.zero h = true -> Float.ltb Float.zero b = true ->
     Float.ltb h (Float.neg b) = false /\
     (is_OptionError (Domain._transform_tr w h [a; b]) ->
      Float.ltb w a = true)) /\
  Domain._transform_tr (F 100) (F 5) [F 10; F 10] =
    Ok (F 10, F (-10), F 10, Float.div (F 1) (F 2)).
Proof.
  split; [| vm_compute; reflexivity].
  intros w h a b Hh Hb.
  assert (G : Float.ltb h (Float.neg b) = false).
  { apply ltb_zero_inv in Hh as [-> | (mh & eh & ->)];
      apply ltb_zero_inv in Hb as [-> | (mb & eb & ->)]; reflexivity. }
  split; [exact G |].
  intros [msg H]. unfold Domain._transform_tr in H. cbn in H.
  rewrite G, orb_false_r in H.
  destruct (Float.ltb w a); [reflexivity |]. exfalso.
  destruct (Float.py_div w a) eqn:Dx; [step_bind H | raise_absurd H Dx].
  destruct (Float.py_div h (Float.neg b)) eqn:Dy;
    [step_bind H | raise_absurd H Dy].
  discriminate.
Qed.

(** Width 100 and height 5 with tr = [10,10]. *)
Lemma C8_height_guard_never_fires_witness :
  Float.ltb (F 5) (Float.neg (F 10)) = false /\
  (is_OptionError (Domain._transform_tr (F 100) (F 5) [F 10; F 10]) ->
   Float.ltb (F 100) (F 10) = true).
Proof.
  apply (proj1 C8_height_guard_never_fires (F 100) (F 5) (F 10) (F 10));
    vm_compute; reflexivity.
Defined.

(** ** The ts branch *)

Lemma geotransform_ts d x0 y0 x1 y1 a b :
  d !! "te" = Some [x0; y0; x1; y1] ->
  d !! "tr" = None -> d !! "ts" = Some [a; b] ->
  Float.leb (Float.sub x1 x0) Float.zero = false ->
  Float.leb (Float.sub y1 y0) Float.zero = false ->
  Domain._get_geotransform d =
    (rx ← Float.py_div (Float.sub x1 x0) a;
     q ← Float.py_div (Float.sub y1 y0) b;
     nx ← Float.py_int a;
     ny ← Float.py_int b;
     Ok ([x0; rx; Float.zero; y1; Float.zero; Float.neg (Float.abs q)],
         nx, ny)).
Proof.
  intros Ete Etr Ets Lw Lh.
  rewrite (geotransform_unfold d x0 y0 x1 y1 [] Ete). cbn zeta.
  rewrite Lw, Lh. cbn [orb]. unfold resolution_step, getitem.
  rewrite Etr, Ets. unfold Domain._transform_ts. cbn.
  destruct (Float.py_div (Float.sub x1 x0) a); [| reflexivity]. cbn.
  destruct (Float.py_div (Float.sub y1 y0) b); reflexivity.
Qed.

(** C6: in the ts branch, for a box of positive width and height and a
    finite non-zero [ts] pair, the result is the transform
    [(xmin, width / ts[0], 0.0, ymax, 0.0, -abs(height / ts[1]))] with the
    sizes [int(ts[0])] and [int(ts[1])]; [int] truncates toward zero; for
    te=[0,0,100,100] and ts=[100,100] the transform is
    (0,1.0,0,100,0.0,-1.0) and the size (100,100). *)
Theorem C6_ts_branch :
  (forall d x0 y0 x1 y1 a b,
     d !! "te" = Some [x0; y0; x1; y1] ->
     d !! "tr" = None -> d !! "ts" = Some [a; b] ->
     Float.ltb Float.zero (Float.sub x1 x0) = true ->
     Float.ltb Float.zero (Float.sub y1 y0) = true ->
     Float.is_zero a = false -> Float.is_zero b = false ->
     Float.is_finite a = true -> Float.is_finite b = true ->
     exists nx ny,
       Float.py_int a = Ok nx /\ Float.py_int b = Ok ny /\
       Domain._get_geotransform d =
         Ok ([x0; Float.div (Float.sub x1 x0) a; Float.zero;
              y1; Float.zero;
              Float.neg (Float.abs (Float.div (Float.sub y1 y0) b))],
             nx, ny)) /\
  (forall s m e,
     Float.py_int (S754_finite s m e) =
       Ok (if (0 <=? e)%Z then cond_Zopp s (Z.pos m) * 2 ^ e
           else Z.quot (cond_Zopp s (Z.pos m)) (2 ^ (- e)))) /\
  (x ← Float.py_float "2.7"; Float.py_int x) = Ok 2 /\
  (x ← Float.py_float "-2.7"; Float.py_int x) = Ok (-2) /\
  Domain._get_geotransform (spec_ts [F 0; F 0; F 100; F 100] [F 100; F 100]) =
    Ok ([F 0; F 1; F 0; F 100; Float.zero; F (-1)], 100, 100).
Proof.
  split; [| split; [exact py_int_truncates | repeat split; vm_compute; reflexivity]].
  intros d x0 y0 x1 y1 a b Ete Etr Ets Hw%ltb_zero_not_leb Hh%ltb_zero_not_leb
    Za Zb Fa Fb.
  rewrite (geotransform_ts d x0 y0 x1 y1 a b Ete Etr Ets Hw Hh).
  unfold Float.py_div. rewrite Za, Zb. cbn [mbind result_bind].
  destruct a as [sa | sa | | sa ma ea]; try discriminate.
  destruct b as [sb | sb | | sb mb eb]; try discriminate.
  eexists _, _. repeat split; reflexivity.
Qed.

(** The box [0,0,100,100] with ts = [100,100]. *)
Lemma C6_ts_branch_witness :
  exists nx ny,
    Float.py_int (F 100) = Ok nx /\ Float.py_int (F 100) = Ok ny /\
    Domain._get_geotransform
      (spec_ts [F 0; F 0; F 100; F 100] [F 100; F 100]) =
      Ok ([F 0; Float.div (Float.sub (F 100) (F 0)) (F 100); Float.zero;
           F 100; Float.zero;
           Float.neg (Float.abs (Float.div (Float.sub (F 100) (F 0)) (F 100)))],
          nx, ny).
Proof.
  apply (proj1 C6_ts_branch
           (spec_ts [F 0; F 0; F 100; F 100] [F 100; F 100])
           (F 0) (F 0) (F 100) (F 100) (F 100) (F 100));
    vm_compute; reflexivity.
Defined.

(** ** Division by zero *)

Lemma ltb_zero_divisor w a :
  Float.is_zero a = true -> Float.leb w Float.zero = false ->
  Float.ltb w a = false.
Proof.
  destruct a as [sa | | |]; try discriminate. intros _.
  destruct w as [sw | [] | | [] mw ew]; cbn; congruence.
Qed.

(** C10: the divisions are not guarded against zero. With a box of positive
    width and height, a [ts] pair containing a zero makes the derivation
    raise [ZeroDivisionError]; a [tr] pair with [tr[0] = 0] passes the
    comparison [width < resolutionX], and unless the height comparison
    fires, the derivation raises [ZeroDivisionError] as well. The string
    ["0"] is a valid float, so both cases are reached from extent strings. *)
Theorem C10_unguarded_division :
  (forall d x0 y0 x1 y1 a b,
     d !! "te" = Some [x0; y0; x1; y1] ->
     d !! "tr" = None -> d !! "ts" = Some [a; b] ->
     Float.ltb Float.zero (Float.sub x1 x0) = true ->
     Float.ltb Float.zero (Float.sub y1 y0) = true ->
     Float.is_zero a = true \/ Float.is_zero b = true ->
     Domain._get_geotransform d = Raise ZeroDivisionError) /\
  (forall d x0 y0 x1 y1 a b,
     d !! "te" = Some [x0; y0; x1; y1] -> d !! "tr" = Some [a; b] ->
     Float.ltb Float.zero (Float.sub x1 x0) = true ->
     Float.ltb Float.zero (Float.sub y1 y0) = true ->
     Float.is_zero a = true ->
     Float.ltb (Float.sub x1 x0) a = false /\
     (Float.ltb (Float.sub y1 y0) (Float.neg b) = false ->
      Domain._get_geotransform d = Raise ZeroDivisionError)) /\
  Float.py_float "0" = Ok Float.zero /\
  (d ← Domain._create_extent_dict "-te 0 0 100 100 -ts 0 5";
   Domain._get_geotransform d) = Raise ZeroDivisionError /\
  (d ← Domain._create_extent_dict "-te 0 0 100 100 -ts 5 0";
   Domain._get_geotransform d) = Raise ZeroDivisionError /\
  (d ← Domain._create_extent_dict "-te 0 0 100 100 -tr 0 5";
   Domain._get_geotransform d) = Raise ZeroDivisionError.
Proof.
  split; [| split; [| repeat split; vm_compute; reflexivity]].
  - intros d x0 y0 x1 y1 a b Ete Etr Ets Hw%ltb_zero_not_leb
      Hh%ltb_zero_not_leb Hz.
    rewrite (geotransform_ts d x0 y0 x1 y1 a b Ete Etr Ets Hw Hh).
    unfold Float.py_div.
    destruct (Float.is_zero a); [reflexivity |].
    destruct Hz as [Hz | ->]; [discriminate | reflexivity].
  - intros d x0 y0 x1 y1 a b Ete Etr Hw%ltb_zero_not_leb
      Hh%ltb_zero_not_leb Hz.
    assert (G : Float.ltb (Float.sub x1 x0) a = false).
    { apply ltb_zero_divisor; assumption. }
    split; [exact G |]. intros G'.
    rewrite (geotransform_tr d x0 y0 x1 y1 a b Ete Etr Hw Hh), G, G'.
    cbn [orb]. rewrite (py_div_zero _ a) by assumption. reflexivity.
Qed.

(** The box [0,0,100,100] with ts = [0,5]. *)
Lemma C10_unguarded_division_witness :
  Domain._get_geotransform (spec_ts [F 0; F 0; F 100; F 100] [F 0; F 5]) =
    Raise ZeroDivisionError.
Proof.
  apply (proj1 C10_unguarded_division
           (spec_ts [F 0; F 0; F 100; F 100] [F 0; F 5])
           (F 0) (F 0) (F 100) (F 100) (F 0) (F 5));
    try (vm_compute; reflexivity).
  left. reflexivity.
Defined.

(** ** Minus signs in extent strings *)

Section HyphenFacts.

Lemma groups_length s : length (groups s) = Str.count "-" s.
Proof.
  unfold groups. pose proof (split_on_length "-" (Str.strip s)) as H.
  rewrite count_strip in H by reflexivity.
  destruct (Str.split_on "-" (Str.strip s)); cbn in *; lia.
Qed.

Lemma groups_fields s : Forall (fun g => Str.count "-" g = 0%nat) (groups s).
Proof.
  unfold groups. pose proof (split_on_fields "-" (Str.strip s)) as H.
  destruct (Str.split_on "-" (Str.strip s)); [constructor |].
  by inversion H.
Qed.

Lemma create_wrong_count s :
  Str.count "-" s <> 2%nat ->
  Domain._create_extent_dict s =
    Raise (OptionError (Msg_two_parameters (Str.count "-" s))).
Proof.
  intros Hc. rewrite create_unfold. pose proof (groups_length s) as L.
  destruct (groups s) as [| g0 [| g1 [| g2 gs]]]; cbn in L;
    try (by rewrite <- L); congruence.
Qed.

Lemma sign_true l : fst (Float.sign l) = true -> exists l', l = "-"%char :: l'.
Proof.
  destruct l as [| c l]; cbn; [discriminate |].
  destruct (Ascii.eqb_spec c "-") as [-> | _]; [eauto |].
  destruct (Ascii.eqb c "+"); discriminate.
Qed.

Lemma of_decimal_signbit m e : Float.signbit (Float.of_decimal m e) = false.
Proof.
  unfold Float.of_decimal. destruct m as [| p | p]; try reflexivity.
  destruct (0 <=? e)%Z eqn:He.
  - apply of_Z_signbit. apply Z.mul_nonneg_nonneg; [lia |].
    apply Z.pow_nonneg. lia.
  - apply not_true_is_false. intros H%div_signbit. discriminate.
Qed.

Lemma absfloatvalue_signbit l x :
  Float.absfloatvalue l = Some x -> Float.signbit x = false.
Proof.
  unfold Float.absfloatvalue.
  destruct (_ || _); [by intros [= <-] |].
  destruct (String.eqb _ _); [by intros [= <-] |].
  destruct (Float.number l) as [[[ip fp] r] |]; [| discriminate].
  destruct (Float.exponent r); [| discriminate].
  intros [= <-]. apply of_decimal_signbit.
Qed.

Lemma py_float_signbit t x :
  Str.count "-" t = 0%nat -> Float.py_float t = Ok x ->
  Float.signbit x = false.
Proof.
  intros Hc. unfold Float.py_float.
  destruct (Float.sign _) as [sg l] eqn:Es.
  destruct (Float.absfloatvalue l) as [y |] eqn:Ea; [| discriminate].
  intros [= <-]. destruct sg; [| by eapply absfloatvalue_signbit].
  exfalso.
  destruct (sign_true (list_ascii_of_string (Float.rstrip (Float.lstrip t))))
    as [l' El]; [by rewrite Es |].
  rewrite <- (count_float_lstrip "-" t), <- (count_float_rstrip "-" _) in Hc
    by reflexivity.
  destruct (Float.rstrip (Float.lstrip t)) as [| c t']; [discriminate |].
  cbn in El. injection El as -> _. cbn in Hc. discriminate.
Qed.

Lemma good_group_signbit params size g name values :
  Str.count "-" g = 0%nat ->
  good_group params size (Str.split g) name values ->
  Forall (fun v => Float.signbit v = false) values.
Proof.
  intros Hc (tokens & E & _ & T & _).
  pose proof (split_tokens "-" g) as Ht. rewrite E, Hc in Ht.
  apply Forall_cons in Ht as [_ Htok].
  apply traverse_Forall2 in T. clear E.
  induction T as [| t v ts vs Hv _ IH]; [constructor |].
  apply Forall_cons in Htok as [Ht Htok].
  constructor; [| by apply IH].
  eapply py_float_signbit; [| exact Hv]. lia.
Qed.

Lemma create_no_sign_bit s d :
  Domain._create_extent_dict s = Ok d -> no_sign_bit d.
Proof.
  intros (g0 & g1 & n0 & f0 & n1 & f1 & G & H0 & H1 & ->)%create_Ok_inv.
  pose proof (groups_fields s) as Hf. rewrite G in Hf.
  inversion Hf as [| ? ? C0 Hf']; subst.
  inversion Hf' as [| ? ? C1 _]; subst.
  apply (good_group_signbit _ _ _ _ _ C0) in H0.
  apply (good_group_signbit _ _ _ _ _ C1) in H1.
  intros k vs v Hk Hv.
  rewrite lookup_insert in Hk. case_decide.
  - injection Hk as <-. by eapply Forall_forall in H1.
  - rewrite lookup_insert in Hk. case_decide; [| by rewrite lookup_empty in Hk].
    injection Hk as <-. by eapply Forall_forall in H0.
Qed.

Lemma extent_string_count opt1 values1 opt2 values2 :
  Str.count "-" (extent_string opt1 values1 opt2 values2) =
    (2 + Str.count "-" opt1 + list_sum (map (Str.count "-") values1)
       + Str.count "-" opt2 + list_sum (map (Str.count "-") values2))%nat.
Proof.
  unfold extent_string.
  rewrite !count_app, !count_join by reflexivity.
  cbn. lia.
Qed.

Lemma list_sum_elem (f : string -> nat) l v :
  v ∈ l -> (f v <= list_sum (map f l))%nat.
Proof.
  induction l as [| w l IH]; intros Hv; [by apply elem_of_nil in Hv |].
  simpl. apply elem_of_cons in Hv as [-> | Hv]; [lia |].
  specialize (IH Hv). lia.
Qed.

End HyphenFacts.

(** C9: a minus sign in front of a number is a separator like the one in
    front of an option name. A string in the documented format with a
    negative value has more than two groups and is rejected with the
    message giving their number; the example of the class documentation is
    among them. So no dictionary that the parser returns has a value with
    its sign bit set. *)
Theorem C9_negative_values_rejected :
  (forall s, (3 <= Str.count "-" s)%nat ->
     Domain._create_extent_dict s =
       Raise (OptionError (Msg_two_parameters (Str.count "-" s)))) /\
  (forall opt1 values1 opt2 values2 t,
     String "-" t ∈ (values1 ++ values2)%list ->
     exists n,
       (2 < n)%nat /\
       length (groups (extent_string opt1 values1 opt2 values2)) = n /\
       Domain._create_extent_dict (extent_string opt1 values1 opt2 values2) =
         Raise (OptionError (Msg_two_parameters n))) /\
  Domain._create_extent_dict "-te -10 30 55 60 -ts 100 100" =
    Raise (OptionError (Msg_two_parameters 3)) /\
  Domain._create_extent_dict ext_lle_ts =
    Raise (OptionError (Msg_two_parameters 3)) /\
  (forall s d, Domain._create_extent_dict s = Ok d -> no_sign_bit d).
Proof.
  split; [| split; [| repeat split;
                      [vm_compute; reflexivity .. | exact create_no_sign_bit]]].
  - intros s Hc. apply create_wrong_count. lia.
  - intros opt1 values1 opt2 values2 t Ht.
    pose proof (extent_string_count opt1 values1 opt2 values2) as Hc.
    assert (1 <= list_sum (map (Str.count "-") values1)
                 + list_sum (map (Str.count "-") values2))%nat as Hs.
    { apply elem_of_app in Ht as [Ht | Ht];
        apply (list_sum_elem (Str.count "-")) in Ht; cbn in Ht; lia. }
    exists (Str.count "-" (extent_string opt1 values1 opt2 values2)).
    split; [lia |]. split; [apply groups_length |].
    apply create_wrong_count. lia.
Qed.

(** The string [-te -10 30 55 60 -ts 100 100], built from its tokens. *)
Lemma C9_negative_values_rejected_witness :
  exists n,
    (2 < n)%nat /\
    length (groups (extent_string "te" ["-10"; "30"; "55"; "60"]
                      "ts" ["100"; "100"])) = n /\
    Domain._create_extent_dict
      (extent_string "te" ["-10"; "30"; "55"; "60"] "ts" ["100"; "100"]) =
      Raise (OptionError (Msg_two_parameters n)).
Proof.
  apply (proj1 (proj2 C9_negative_values_rejected)
           "te" ["-10"; "30"; "55"; "60"] "ts" ["100"; "100"] "10").
  apply elem_of_cons. left. reflexivity.
Defined.

(** ** The raster size *)

Lemma leb_false_signbit w :
  Float.leb w Float.zero = false -> Float.signbit w = false.
Proof. destruct w as [[] | [] | | [] m e]; cbn; congruence. Qed.

Lemma geotransform_illegal d x0 y0 x1 y1 rest :
  d !! "te" = Some (x0 :: y0 :: x1 :: y1 :: rest) ->
  Float.leb (Float.sub x1 x0) Float.zero = true \/
  Float.leb (Float.sub y1 y0) Float.zero = true ->
  Domain._get_geotransform d = Raise (OptionError Msg_extent_illegal).
Proof.
  intros Ete H. rewrite (geotransform_unfold d x0 y0 x1 y1 rest Ete). cbn zeta.
  destruct H as [-> | ->]; [reflexivity |]. by rewrite orb_true_r.
Qed.

Lemma sizes_nonneg d c nx ny :
  (forall k vs v, k = "ts" \/ k = "tr" -> d !! k = Some vs -> v ∈ vs ->
     Float.signbit v = false) ->
  Domain._get_geotransform d = Ok (c, nx, ny) -> 0 <= nx /\ 0 <= ny.
Proof.
  intros Hs H.
  apply geotransform_Ok_inv in H
    as (x0 & y0 & x1 & y1 & rest & rx & ry & sx & sy
        & Ete & Lw%leb_false_signbit & Lh & Er & -> & Ex & Ey).
  unfold resolution_step in Er. destruct (d !! "tr") as [tr_arr |] eqn:Etr.
  - apply transform_tr_Ok_inv in Er
      as (a & b & Ea & _ & _ & _ & _ & _ & _ & _ & -> & ->).
    assert (Sa : Float.signbit a = false).
    { apply (Hs "tr" tr_arr a); [by right | done |].
      by eapply list_elem_of_lookup_2. }
    split.
    + eapply py_int_nonneg; [| exact Ex].
      apply not_true_is_false. intros Hd%div_signbit.
      rewrite Lw, Sa in Hd. discriminate.
    + eapply py_int_nonneg; [apply abs_signbit | exact Ey].
  - apply bind_Ok_inv in Er as (ts_arr & Ets%getitem_Ok & Er).
    apply transform_ts_Ok_inv in Er as (a & b & -> & _ & _ & _ & _ & -> & ->).
    split; (eapply py_int_nonneg; [| eassumption]);
      apply (Hs "ts" [a; b]); auto; set_solver.
Qed.

(** C4, as stated, fails: sizes below 1 in a [ts] pair, and a [tr]
    resolution above the height, are accepted and give a raster size 0. *)
Lemma C4_zero_raster_size :
  (d ← Domain._create_extent_dict "-te 0 0 100 100 -ts 0.5 0.5";
   Domain._get_geotransform d) =
    Ok ([F 0; F 200; Float.zero; F 100; Float.zero; F (-200)], 0, 0) /\
  (d ← Domain._create_extent_dict "-te 0 0 100 5 -tr 10 10";
   Domain._get_geotransform d) =
    Ok ([F 0; F 10; Float.zero; F 5; Float.zero; F (-10)], 10, 0).
Proof. split; vm_compute; reflexivity. Qed.

(** C4, amended: when the derivation succeeds on a spec whose [tr] or [ts]
    values have a clear sign bit, as all values accepted by the parser
    have, also after a [te] box was stored by the lle conversion, the
    raster width and height are non-negative integers (they can be 0); and
    whenever [xmax - xmin <= 0] or [ymax - ymin <= 0] the derivation raises
    [OptionError] at the extent check, before any size is computed. *)
Theorem C4_raster_size :
  (forall d c nx ny,
     (forall k vs v, k = "ts" \/ k = "tr" -> d !! k = Some vs -> v ∈ vs ->
        Float.signbit v = false) ->
     Domain._get_geotransform d = Ok (c, nx, ny) -> 0 <= nx /\ 0 <= ny) /\
  (forall s d d' te c nx ny,
     Domain._create_extent_dict s = Ok d ->
     d' = d \/ d' = <["te" := te]> d ->
     Domain._get_geotransform d' = Ok (c, nx, ny) -> 0 <= nx /\ 0 <= ny) /\
  (forall d x0 y0 x1 y1 rest,
     d !! "te" = Some (x0 :: y0 :: x1 :: y1 :: rest) ->
     Float.leb (Float.sub x1 x0) Float.zero = true \/
     Float.leb (Float.sub y1 y0) Float.zero = true ->
     Domain._get_geotransform d = Raise (OptionError Msg_extent_illegal)).
Proof.
  split; [exact sizes_nonneg |]. split; [| exact geotransform_illegal].
  intros s d d' te c nx ny Hp Hd. apply sizes_nonneg.
  intros k vs v Hk Hl. apply (create_no_sign_bit s d Hp k).
  destruct Hd as [-> | ->]; [done |].
  rewrite lookup_insert_ne in Hl; [done |].
  destruct Hk as [-> | ->]; discriminate.
Qed.

(** The string [-te 0 0 100 50 -tr 10 10], of size (10,5). *)
Lemma C4_raster_size_witness :
  0 <= 10 /\ 0 <= 5.
Proof.
  apply (proj1 (proj2 C4_raster_size)
           "-te 0 0 100 50 -tr 10 10"
           (spec_tr [F 0; F 0; F 100; F 50] [F 10; F 10])
           (spec_tr [F 0; F 0; F 100; F 50] [F 10; F 10])
           []
           [F 0; F 10; Float.zero; F 50; Float.zero; F (-10)] 10 5).
  - vm_compute. reflexivity.
  - left. reflexivity.
  - vm_compute. reflexivity.
Defined.

(** ** The exceptions *)

Section ErrorFacts.

Lemma traverse_py_float_raise tokens t :
  t ∈ tokens -> Float.py_float t = Raise ValueError ->
  traverse Float.py_float tokens = Raise ValueError.
Proof.
  intros Ht Et.
  destruct (traverse_py_float_cases tokens) as [[vs E] | [E _]]; [| done].
  exfalso. apply traverse_Forall2 in E.
  induction E as [| t' v ts vs Hv _ IH]; [by apply elem_of_nil in Ht |].
  apply elem_of_cons in Ht as [-> | Ht]; [congruence | auto].
Qed.

Lemma check_bad params size option_vars msg :
  bad_group params size option_vars msg ->
  Domain._check_extent_input option_vars params size =
    Raise (OptionError msg).
Proof.
  intros (name & tokens & -> & H). unfold Domain._check_extent_input. cbn.
  destruct H as [[Hn ->] | [(Hin & (t & Ht & Et) & ->)
                           | (Hin & (vs & Ev) & Hlen & ->)]].
  - by rewrite bool_decide_eq_false_2.
  - rewrite bool_decide_eq_true_2 by done.
    by rewrite (traverse_py_float_raise tokens t).
  - rewrite bool_decide_eq_true_2 by done. rewrite Ev.
    apply traverse_length in Ev.
    destruct (Nat.eqb_spec (length vs) size); [congruence | reflexivity].
Qed.

Lemma check_good params size option_vars name values :
  good_group params size option_vars name values ->
  Domain._check_extent_input option_vars params size = Ok tt.
Proof.
  intros (tokens & -> & Hin & T & Hlen).
  unfold Domain._check_extent_input. cbn.
  rewrite bool_decide_eq_true_2 by done. rewrite T.
  by rewrite (proj2 (Nat.eqb_eq _ _) Hlen).
Qed.

Lemma create_OptionError_iff s msg :
  Domain._create_extent_dict s = Raise (OptionError msg) <->
  parser_rejects s msg.
Proof.
  split.
  - intros E. pose proof (parse_outcome_holds s) as H. rewrite E in H.
    inversion H; subst.
    + left. split; [done | reflexivity].
    + right. eexists _, _. split; [eassumption |]. by left.
    + right. eexists _, _. split; [eassumption |]. right. eauto.
  - intros [[Hn ->] | (g0 & g1 & G & [Hb | [(n0 & f0 & Hg) Hb]])].
    + rewrite create_unfold.
      destruct (groups s) as [| ? [| ? [| ? ?]]]; try reflexivity.
      by destruct Hn.
    + rewrite create_unfold, G, (check_bad _ _ _ _ Hb). reflexivity.
    + rewrite create_unfold, G, (check_good _ _ _ _ _ Hg),
        (check_bad _ _ _ _ Hb). reflexivity.
Qed.

Lemma bad_group_fails params size option_vars msg :
  bad_group params size option_vars msg -> group_fails params size option_vars.
Proof.
  intros (name & tokens & -> & H). exists name, tokens. split; [done |].
  destruct H as [[Hn _] | [(_ & Ht & _) | (_ & _ & Hlen & _)]]; auto.
Qed.

Lemma good_group_passes params size option_vars name values :
  good_group params size option_vars name values ->
  ~ group_fails params size option_vars.
Proof.
  intros (tokens & -> & Hin & T & Hlen) (name' & tokens' & [= <- <-] & H).
  destruct H as [Hn | [(t & Ht & Et) | Hl]]; [done | |].
  - rewrite (traverse_py_float_raise tokens t Ht Et) in T. discriminate.
  - apply traverse_length in T. congruence.
Qed.

(** The parser on two groups that both have an option name. *)
Lemma create_named s g0 g1 :
  groups s = [g0; g1] -> Str.split g0 <> [] -> Str.split g1 <> [] ->
  (is_OptionError (Domain._create_extent_dict s) <->
   group_fails ["te"; "lle"] 4 (Str.split g0) \/
   group_fails ["ts"; "tr"] 2 (Str.split g1)) /\
  (is_OptionError (Domain._create_extent_dict s) \/
   is_Ok (Domain._create_extent_dict s)).
Proof.
  intros G N0 N1. pose proof (parse_outcome_holds s) as H.
  destruct H as [n Hn Hne | g0' g1' G' E | g0' g1' msg G' Hb
                | g0' g1' n0 f0 G' Hg E | g0' g1' n0 f0 msg G' Hg Hb
                | g0' g1' n0 f0 n1 f1 G' Hg0 Hg1];
    try (rewrite G in G'; injection G' as <- <-).
  - rewrite G in Hn. cbn in Hn. congruence.
  - done.
  - assert (is_OptionError (Raise (A:=extent_dict) (OptionError msg)))
      by by eexists.
    apply bad_group_fails in Hb. tauto.
  - done.
  - assert (is_OptionError (Raise (A:=extent_dict) (OptionError msg)))
      by by eexists.
    apply bad_group_fails in Hb. tauto.
  - apply good_group_passes in Hg0, Hg1. split; [| right; by eexists].
    split; [intros [msg [=]] | tauto].
Qed.

Lemma py_int_exn x e : Float.py_int x = Raise e -> arithmetic_error e.
Proof. destruct x; intros [=]; subst; unfold arithmetic_error; auto. Qed.

Lemma py_div_exn x y e : Float.py_div x y = Raise e -> arithmetic_error e.
Proof.
  unfold Float.py_div. destruct (Float.is_zero y); intros [=]; subst.
  by left.
Qed.

(** The exceptions of the derivation on a box and a pair. *)
Lemma geotransform_exn d x0 y0 x1 y1 a b e :
  d !! "te" = Some [x0; y0; x1; y1] ->
  d !! "tr" = Some [a; b] \/ d !! "tr" = None /\ d !! "ts" = Some [a; b] ->
  Domain._get_geotransform d = Raise e ->
  (exists msg, e = OptionError msg /\ derive_rejects d x0 y0 x1 y1 msg) \/
  (arithmetic_error e /\ forall msg, ~ derive_rejects d x0 y0 x1 y1 msg).
Proof.
  intros Ete Hp H. unfold derive_rejects. cbn zeta.
  destruct (Float.leb (Float.sub x1 x0) Float.zero
            || Float.leb (Float.sub y1 y0) Float.zero) eqn:G.
  - left. exists Msg_extent_illegal. split; [| by left].
    rewrite (geotransform_illegal d x0 y0 x1 y1 [] Ete) in H
      by by apply orb_true_iff.
    congruence.
  - apply orb_false_iff in G as [Lw Lh]. destruct Hp as [Etr | [Etr Ets]].
    + rewrite (geotransform_tr d x0 y0 x1 y1 a b Ete Etr Lw Lh) in H.
      destruct (Float.ltb (Float.sub x1 x0) a || Float.ltb _ _) eqn:G2.
      * injection H as <-. left. eexists. split; [reflexivity |].
        right. split; [done |]. exists a, b. done.
      * right. split.
        -- destruct (Float.py_div (Float.sub x1 x0) a) as [sx |] eqn:Dx;
             step_bind H; [| injection H as <-; by eapply py_div_exn].
           destruct (Float.py_div (Float.sub y1 y0) (Float.neg b))
             as [q |] eqn:Dy;
             step_bind H; [| injection H as <-; by eapply py_div_exn].
           destruct (Float.py_int sx) eqn:Ix;
             step_bind H; [| injection H as <-; by eapply py_int_exn].
           destruct (Float.py_int (Float.abs q)) eqn:Iy;
             step_bind H; [discriminate |].
           injection H as <-; by eapply py_int_exn.
        -- intros msg [[? _] | [_ (a' & b' & E' & G' & _)]]; [done |].
           rewrite Etr in E'. injection E' as <- <-. congruence.
    + rewrite (geotransform_ts d x0 y0 x1 y1 a b Ete Etr Ets Lw Lh) in H.
      right. split.
      * destruct (Float.py_div (Float.sub x1 x0) a) as [sx |] eqn:Dx;
          step_bind H; [| injection H as <-; by eapply py_div_exn].
        destruct (Float.py_div (Float.sub y1 y0) b) as [q |] eqn:Dy;
          step_bind H; [| injection H as <-; by eapply py_div_exn].
        destruct (Float.py_int a) eqn:Ix;
          step_bind H; [| injection H as <-; by eapply py_int_exn].
        destruct (Float.py_int b) eqn:Iy;
          step_bind H; [discriminate |].
        injection H as <-; by eapply py_int_exn.
      * intros msg [[? _] | [_ (a' & b' & E' & _)]]; [done | congruence].
Qed.

Lemma derive_rejects_raises d x0 y0 x1 y1 msg :
  d !! "te" = Some [x0; y0; x1; y1] ->
  derive_rejects d x0 y0 x1 y1 msg ->
  Domain._get_geotransform d = Raise (OptionError msg).
Proof.
  intros Ete [[G ->] | [G (a & b & Etr & G2 & ->)]].
  - apply (geotransform_illegal d x0 y0 x1 y1 [] Ete).
    by apply orb_true_iff.
  - apply orb_false_iff in G as [Lw Lh].
    by rewrite (geotransform_tr d x0 y0 x1 y1 a b Ete Etr Lw Lh), G2.
Qed.

End ErrorFacts.

(** C5, as stated, fails: other exceptions than [OptionError] are raised,
    a resolution above the height is accepted, and a ts/tr group in first
    position is rejected although its name is one of the four. *)
Lemma C5_other_exceptions :
  (d ← Domain._create_extent_dict "-te 0 0 100 100 -ts 0 0";
   Domain._get_geotransform d) = Raise ZeroDivisionError /\
  Domain._create_extent_dict "-te 1 2 3 4 -" = Raise IndexError /\
  is_Ok (d ← Domain._create_extent_dict "-te 0 0 100 5 -tr 10 10";
         Domain._get_geotransform d) /\
  is_OptionError (Domain._create_extent_dict ext_tr_te).
Proof.
  repeat split; try (vm_compute; reflexivity); eexists; vm_compute; reflexivity.
Qed.

(** C5, amended. The parser raises [OptionError] when the number of groups
    is not 2, and the message gives the number. On two groups that both
    have an option name it raises [OptionError] exactly when the first
    group is not named te or lle, or has a token that is not numeric, or
    does not have 4 values, or the second group is not named ts or tr, or
    has a token that is not numeric, or does not have 2 values; otherwise
    it returns the dictionary. On a box of four values and a pair of two,
    the derivation raises [OptionError] exactly when the comparison
    [width <= 0 or height <= 0] holds (it is false of a NaN) or, in the tr
    branch, [width < tr[0] or height < -tr[1]] holds; its other exceptions
    are [ZeroDivisionError], [OverflowError] and [ValueError], those of
    the divisions and of [int]. A call that raises returns nothing. *)
Theorem C5_option_error_conditions :
  (forall s,
     length (groups s) <> 2%nat ->
     Domain._create_extent_dict s =
       Raise (OptionError (Msg_two_parameters (length (groups s))))) /\
  (forall s g0 g1,
     groups s = [g0; g1] -> Str.split g0 <> [] -> Str.split g1 <> [] ->
     (is_OptionError (Domain._create_extent_dict s) <->
      group_fails ["te"; "lle"] 4 (Str.split g0) \/
      group_fails ["ts"; "tr"] 2 (Str.split g1)) /\
     (is_OptionError (Domain._create_extent_dict s) \/
      is_Ok (Domain._create_extent_dict s))) /\
  (forall d x0 y0 x1 y1 a b,
     d !! "te" = Some [x0; y0; x1; y1] ->
     d !! "tr" = Some [a; b] \/ d !! "tr" = None /\ d !! "ts" = Some [a; b] ->
     (forall msg,
        Domain._get_geotransform d = Raise (OptionError msg) <->
        derive_rejects d x0 y0 x1 y1 msg) /\
     (forall e,
        Domain._get_geotransform d = Raise e ->
        (exists msg, e = OptionError msg) \/ arithmetic_error e)) /\
  (forall s e,
     Domain._create_extent_dict s = Raise e ->
     ~ is_Ok (Domain._create_extent_dict s)) /\
  (forall d e,
     Domain._get_geotransform d = Raise e ->
     ~ is_Ok (Domain._get_geotransform d)).
Proof.
  split.
  { intros s Hn. apply create_OptionError_iff. left. done. }
  split; [exact create_named |].
  split; [| split; intros ? e E [v Hv]; congruence].
  intros d x0 y0 x1 y1 a b Ete Hp. split.
  - intros msg. split; [| by apply derive_rejects_raises].
    intros H.
    destruct (geotransform_exn d x0 y0 x1 y1 a b _ Ete Hp H)
      as [(msg' & [= <-] & Hr) | [[E | [E | E]] _]];
      [done | discriminate ..].
  - intros e H.
    destruct (geotransform_exn d x0 y0 x1 y1 a b _ Ete Hp H)
      as [(msg' & -> & _) | [Ha _]]; eauto.
Qed.

(** The string [-te 1 2 3 4 -tr x 1], whose second group has a token that
    is not numeric. *)
Lemma C5_option_error_conditions_witness :
  (is_OptionError (Domain._create_extent_dict "-te 1 2 3 4 -tr x 1") <->
   group_fails ["te"; "lle"] 4 (Str.split "te 1 2 3 4 ") \/
   group_fails ["ts"; "tr"] 2 (Str.split "tr x 1")) /\
  (is_OptionError (Domain._create_extent_dict "-te 1 2 3 4 -tr x 1") \/
   is_Ok (Domain._create_extent_dict "-te 1 2 3 4 -tr x 1")).
Proof.
  apply (proj1 (proj2 C5_option_error_conditions)
           "-te 1 2 3 4 -tr x 1" "te 1 2 3 4 " "tr x 1").
  - vm_compute. reflexivity.
  - vm_compute. discriminate.
  - vm_compute. discriminate.
Defined.

(** ** The invariant of the dictionary *)

Section DictFacts.

Lemma first_name_not_second k :
  k ∈ ["te"; "lle"] -> k ∈ ["ts"; "tr"] -> False.
Proof.
  rewrite !elem_of_cons, !elem_of_nil.
  intros [-> | [-> | []]] [H | [H | []]]; discriminate.
Qed.

Lemma create_two_keys s d :
  Domain._create_extent_dict s = Ok d ->
  exists k1 k2 v1 v2,
    k1 ∈ ["te"; "lle"] /\ k2 ∈ ["ts"; "tr"] /\ k1 <> k2 /\
    d = <[k2 := v2]> (<[k1 := v1]> ∅) /\
    length v1 = 4%nat /\ length v2 = 2%nat.
Proof.
  intros (g0 & g1 & n0 & f0 & n1 & f1 & G & H0 & H1 & ->)%create_Ok_inv.
  destruct H0 as (t0 & _ & Hn0 & _ & L0), H1 as (t1 & _ & Hn1 & _ & L1).
  exists n0, n1, f0, f1. repeat split; auto.
  intros ->. by eapply first_name_not_second.
Qed.

Lemma create_dom s d :
  Domain._create_extent_dict s = Ok d -> two_keys d /\ size d = 2%nat.
Proof.
  intros (k1 & k2 & v1 & v2 & H1 & H2 & Hne & -> & _)%create_two_keys.
  split.
  - exists k1, k2. split; [done |]. split; [done |].
    rewrite !dom_insert_L, dom_empty_L, union_empty_r_L.
    apply (comm_L (∪)).
  - rewrite map_size_insert_None by by rewrite lookup_insert_ne.
    by rewrite map_size_insert_None, map_size_empty.
Qed.

Variable TransformPoint : float -> float -> float * float * float.

Lemma converted_te_Ok d lle0 lle1 lle2 lle3 rest :
  d !! "lle" = Some (lle0 :: lle1 :: lle2 :: lle3 :: rest) ->
  exists te,
    Domain.converted_te TransformPoint d = Ok te /\ length te = 4%nat.
Proof.
  intros E. unfold Domain.converted_te, getitem. rewrite E. cbn.
  destruct (TransformPoint lle0 lle3) as [[x1 y1] z1].
  destruct (TransformPoint lle2 lle3) as [[x2 y2] z2].
  destruct (TransformPoint lle2 lle1) as [[x3 y3] z3].
  destruct (TransformPoint lle0 lle1) as [[x4 y4] z4].
  eexists. split; reflexivity.
Qed.

Lemma convert_in_place r (h : heap) d te :
  h !! r = Some d -> Domain.converted_te TransformPoint d = Ok te ->
  Domain._convert_extentDic TransformPoint r h =
    (Ok r, <[r := <["te" := te]> d]> h).
Proof.
  intros Hr Hte. unfold Domain._convert_extentDic. rewrite Hr. cbn.
  by rewrite Hte.
Qed.

Lemma converted_three_keys s d te :
  Domain._create_extent_dict s = Ok d -> is_Some (d !! "lle") ->
  size (<["te" := te]> d) = 3%nat /\
  dom (<["te" := te]> d) = dom d ∪ {[ "te" ]} /\ "te" ∉ dom d.
Proof.
  intros Hp [lle Hl]. pose proof (create_dom s d Hp) as [_ Hsz].
  apply create_two_keys in Hp
    as (k1 & k2 & v1 & v2 & H1 & H2 & Hne & -> & _).
  assert (Hte : (<[k2 := v2]> (<[k1 := v1]> (∅ : extent_dict))) !! "te" = None).
  { assert (k1 = "lle") as ->.
    { rewrite lookup_insert in Hl. case_decide as Hk2.
      - exfalso. subst k2. revert H2. rewrite !elem_of_cons, elem_of_nil.
        intros [H | [H | []]]; discriminate.
      - rewrite lookup_insert in Hl. case_decide; [done |].
        by rewrite lookup_empty in Hl. }
    rewrite lookup_insert_ne.
    - by rewrite lookup_insert_ne.
    - intros ->. revert H2. rewrite !elem_of_cons, elem_of_nil.
      intros [H | [H | []]]; discriminate. }
  split; [by rewrite map_size_insert_None, Hsz |].
  split; [rewrite dom_insert_L; apply (comm_L (∪)) |].
  by apply not_elem_of_dom.
Qed.

End DictFacts.

Section ConversionFacts.

Lemma two_keys_size d : two_keys d -> size d = 2%nat.
Proof.
  intros (k1 & k2 & H1 & H2 & Hd).
  rewrite <- size_dom, Hd, size_union, !size_singleton; [reflexivity |].
  apply disjoint_singleton_l, not_elem_of_singleton.
  intros ->. by eapply first_name_not_second.
Qed.

Lemma create_lle_length s d lle :
  Domain._create_extent_dict s = Ok d -> d !! "lle" = Some lle ->
  length lle = 4%nat.
Proof.
  intros (k1 & k2 & v1 & v2 & H1 & H2 & Hne & -> & L1 & _)%create_two_keys.
  rewrite lookup_insert. case_decide as Hk2.
  - exfalso. subst k2. revert H2. rewrite !elem_of_cons, elem_of_nil.
    intros [H | [H | []]]; discriminate.
  - rewrite lookup_insert. case_decide; [by intros [= <-] |].
    by rewrite lookup_empty.
Qed.

Variable TransformPoint : float -> float -> float * float * float.

Lemma convert_parsed s d lle r (h : heap) :
  Domain._create_extent_dict s = Ok d -> d !! "lle" = Some lle ->
  h !! r = Some d ->
  exists te,
    length te = 4%nat /\
    Domain._convert_extentDic TransformPoint r h =
      (Ok r, <[r := <["te" := te]> d]> h) /\
    size (<["te" := te]> d) = 3%nat /\
    dom (<["te" := te]> d) = dom d ∪ {[ "te" ]} /\
    "te" ∉ dom d.
Proof.
  intros Hp Hl Hr. pose proof (create_lle_length s d lle Hp Hl) as L.
  destruct lle as [| l0 [| l1 [| l2 [| l3 rest]]]]; try discriminate.
  destruct (converted_te_Ok TransformPoint d l0 l1 l2 l3 rest Hl)
    as (te & Hte & Lte).
  exists te. split; [done |].
  split; [by apply convert_in_place |].
  apply (converted_three_keys s); [done | by eexists].
Qed.

End ConversionFacts.

(** C7, as stated, fails: the parser accepts [inf] and [nan] as values, and
    the lle conversion updates the parsed dictionary in place, which then
    has three keys. *)
Lemma C7_invariant_broken :
  (exists d,
     Domain._create_extent_dict "-te 0 0 inf nan -ts 5 5" = Ok d /\
     ~ all_finite d) /\
  (exists te,
     Domain._create_extent_dict ext_lle = Ok dict_lle /\
     Domain._convert_extentDic identity_transform 0%nat {[ 0%nat := dict_lle ]}
       = (Ok 0%nat, {[ 0%nat := <["te" := te]> dict_lle ]}) /\
     <["te" := te]> dict_lle <> dict_lle /\
     size (<["te" := te]> dict_lle) = 3%nat /\
     ~ two_keys (<["te" := te]> dict_lle)).
Proof.
  split.
  - exists {[ "te" := [F 0; F 0; Float.inf; Float.nan]; "ts" := [F 5; F 5] ]}.
    split; [vm_compute; reflexivity |].
    intros H.
    specialize (H "te" [F 0; F 0; Float.inf; Float.nan] Float.nan).
    assert (Float.is_finite Float.nan = true) as E; [| discriminate E].
    apply H; [vm_compute; reflexivity |].
    rewrite !elem_of_cons. do 3 right. by left.
  - exists [F 10; F 30; F 55; F 60].
    assert (S3 : size (<["te" := [F 10; F 30; F 55; F 60]]> dict_lle) = 3%nat)
      by (vm_compute; reflexivity).
    split; [vm_compute; reflexivity |]. split; [vm_compute; reflexivity |].
    split; [| split; [exact S3 |]].
    + intros E. rewrite E in S3. vm_compute in S3. discriminate S3.
    + intros H%two_keys_size.
      pose proof (eq_trans (eq_sym H) S3) as E. discriminate E.
Qed.

(** C7, amended: a dictionary returned by the parser has exactly two keys,
    one of te/lle with four floats and one of ts/tr with two floats; the
    floats can be infinite or NaN. The lle conversion stores a [te] list
    of four floats in this very dictionary object and returns the same
    reference: from then on the object has three keys, [lle], [te] and
    the ts/tr key. *)
Theorem C7_dictionary_keys :
  (forall s d,
     Domain._create_extent_dict s = Ok d ->
     two_keys d /\ size d = 2%nat /\
     exists k1 k2 v1 v2,
       k1 ∈ ["te"; "lle"] /\ k2 ∈ ["ts"; "tr"] /\ k1 <> k2 /\
       d = <[k2 := v2]> (<[k1 := v1]> ∅) /\
       length v1 = 4%nat /\ length v2 = 2%nat) /\
  (forall TransformPoint s d lle r (h : heap),
     Domain._create_extent_dict s = Ok d -> d !! "lle" = Some lle ->
     h !! r = Some d ->
     exists te,
       length te = 4%nat /\
       Domain._convert_extentDic TransformPoint r h =
         (Ok r, <[r := <["te" := te]> d]> h) /\
       size (<["te" := te]> d) = 3%nat /\
       dom (<["te" := te]> d) = dom d ∪ {[ "te" ]} /\
       "te" ∉ dom d).
Proof.
  split; [| exact convert_parsed].
  intros s d Hp. destruct (create_dom s d Hp) as [H2 Hs].
  split; [done |]. split; [done |]. exact (create_two_keys s d Hp).
Qed.

(** The lle dictionary at reference 0, converted by the identity. *)
Lemma C7_dictionary_keys_witness :
  exists te,
    length te = 4%nat /\
    Domain._convert_extentDic identity_transform 0%nat {[ 0%nat := dict_lle ]} =
      (Ok 0%nat, <[0%nat := <["te" := te]> dict_lle]> {[ 0%nat := dict_lle ]}) /\
    size (<["te" := te]> dict_lle) = 3%nat /\
    dom (<["te" := te]> dict_lle) = dom dict_lle ∪ {[ "te" ]} /\
    "te" ∉ dom dict_lle.
Proof.
  apply (proj2 C7_dictionary_keys identity_transform ext_lle dict_lle
           [F 10; F 30; F 55; F 60] 0%nat {[ 0%nat := dict_lle ]});
    vm_compute; reflexivity.
Defined.

(** The constructor path on an lle string: the dictionary kept as
    [self.extent_dict] is the parsed object, now with its [te] key. *)
Example init_srs_ext_lle :
  Domain.init_srs_ext identity_transform "-lle 10 30 55 60 -ts 5 10" ∅ =
    (Ok (0%nat,
         ([F 10; F 9; Float.zero; F 60; Float.zero; F (-3)], 5, 10)),
     {[ 0%nat := {[ "lle" := [F 10; F 30; F 55; F 60];
                    "te" := [F 10; F 30; F 55; F 60];
                    "ts" := [F 5; F 10] ]} ]}).
Proof. vm_compute. reflexivity. Qed.

(** ** The pixel coordinates of the border *)

Section BorderFacts.

Lemma py_truediv_exn a b e :
  py_truediv a b = Raise e ->
  b = 0 /\ e = ZeroDivisionError \/ b <> 0 /\ e = OverflowError.
Proof.
  unfold py_truediv. destruct (Z.eqb_spec b 0) as [-> | Hb].
  - intros [= <-]. by left.
  - destruct (Float.is_finite _); intros [= <-]. by right.
Qed.

Lemma py_truediv_zero a : py_truediv a 0 = Raise ZeroDivisionError.
Proof. reflexivity. Qed.

(** Once the quotient is there, the step decides between the two errors. *)
Lemma row_col_vector_quotient raster_size n_points q :
  py_truediv raster_size n_points = Ok q ->
  Domain._get_row_col_vector raster_size n_points =
    Raise (if Float.ltb (F 1) q then TypeError else AttributeError).
Proof.
  intros E. unfold Domain._get_row_col_vector. rewrite E.
  cbn [mbind result_bind]. unfold py_max_one.
  destruct (Float.ltb (F 1) q); reflexivity.
Qed.

Lemma row_col_vector_raises raster_size n_points :
  exists e,
    Domain._get_row_col_vector raster_size n_points = Raise e /\
    (e = ZeroDivisionError <-> n_points = 0).
Proof.
  destruct (py_truediv raster_size n_points) as [q | e] eqn:E.
  - rewrite (row_col_vector_quotient _ _ _ E). eexists. split; [reflexivity |].
    split.
    + destruct (Float.ltb _ _); discriminate.
    + intros ->. rewrite py_truediv_zero in E. discriminate.
  - unfold Domain._get_row_col_vector. rewrite E. exists e.
    split; [reflexivity |].
    apply py_truediv_exn in E as [[-> ->] | [Hn ->]]; [done |].
    split; [discriminate | done].
Qed.

End BorderFacts.

(** X1. [_get_row_col_vector] returns for no pair of [int]s. It raises
    [ZeroDivisionError] exactly when [n_points] is 0. When the quotient
    [raster_size / n_points] is a float above 1, that float is the step
    and [range] refuses it with [TypeError]; when the quotient is a float
    not above 1, the step is 1 and the call of [append] on the range object
    raises [AttributeError]; the only other exception is the
    [OverflowError] of a quotient too large for a float. The sizes 19 and 3
    with 10 points are examples of the two cases. *)
Theorem X1_row_col_vector :
  (forall raster_size n_points,
     exists e,
       Domain._get_row_col_vector raster_size n_points = Raise e /\
       (e = ZeroDivisionError <-> n_points = 0) /\
       (e = ZeroDivisionError \/ e = OverflowError \/
        e = TypeError \/ e = AttributeError)) /\
  (forall raster_size n_points q,
     py_truediv raster_size n_points = Ok q ->
     (Float.ltb (F 1) q = true ->
      Domain._get_row_col_vector raster_size n_points = Raise TypeError) /\
     (Float.ltb (F 1) q = false ->
      Domain._get_row_col_vector raster_size n_points
        = Raise AttributeError)) /\
  (forall raster_size n_points,
     py_truediv raster_size n_points = Raise OverflowError ->
     Domain._get_row_col_vector raster_size n_points = Raise OverflowError) /\
  Domain._get_row_col_vector 19 10 = Raise TypeError /\
  Domain._get_row_col_vector 3 10 = Raise AttributeError.
Proof.
  split; [| split; [| split; [| split; vm_compute; reflexivity]]].
  - intros raster_size n_points.
    destruct (row_col_vector_raises raster_size n_points) as (e & E & Hz).
    exists e. split; [exact E |]. split; [exact Hz |].
    destruct (py_truediv raster_size n_points) as [q | e'] eqn:D.
    + rewrite (row_col_vector_quotient _ _ _ D) in E. injection E as <-.
      destruct (Float.ltb _ _); auto.
    + unfold Domain._get_row_col_vector in E. rewrite D in E.
      injection E as <-.
      apply py_truediv_exn in D as [[_ ->] | [_ ->]]; auto.
  - intros raster_size n_points q D.
    rewrite (row_col_vector_quotient _ _ _ D).
    split; intros ->; reflexivity.
  - intros raster_size n_points D.
    unfold Domain._get_row_col_vector. by rewrite D.
Qed.

(** The quotient 19 / 10. *)
Lemma X1_row_col_vector_witness :
  (Float.ltb (F 1) (Float.div (F 19) (F 10)) = true ->
   Domain._get_row_col_vector 19 10 = Raise TypeError) /\
  (Float.ltb (F 1) (Float.div (F 19) (F 10)) = false ->
   Domain._get_row_col_vector 19 10 = Raise AttributeError).
Proof.
  apply (proj1 (proj2 X1_row_col_vector) 19 10 (Float.div (F 19) (F 10))).
  vm_compute. reflexivity.
Defined.

Section RingFacts.

(** The points of the ring, side by side. *)
Lemma compound_zip x_size y_size x_vec y_vec :
  let '(col_vec, row_vec) :=
    Domain._compound_row_col_vectors x_size y_size x_vec y_vec in
  zip col_vec row_vec =
    (((fun c => (c, 0)) <$> x_vec) ++ ((fun r => (x_size, r)) <$> y_vec)
     ++ ((fun c => (c, y_size)) <$> reverse x_vec)
     ++ ((fun r => (0, r)) <$> reverse y_vec))%list.
Proof.
  cbn. rewrite !zip_with_app
    by (rewrite ?length_replicate, ?length_reverse; reflexivity).
  rewrite !zip_with_replicate_l, !zip_with_replicate_r
    by (rewrite ?length_reverse; reflexivity).
  reflexivity.
Qed.

Lemma compound_lengths x_size y_size x_vec y_vec :
  let '(col_vec, row_vec) :=
    Domain._compound_row_col_vectors x_size y_size x_vec y_vec in
  length col_vec = (2 * (length x_vec + length y_vec))%nat /\
  length row_vec = (2 * (length x_vec + length y_vec))%nat.
Proof.
  cbn. rewrite !length_app, !length_replicate, !length_reverse. lia.
Qed.

Lemma compound_points x_size y_size x_vec y_vec c r :
  let '(col_vec, row_vec) :=
    Domain._compound_row_col_vectors x_size y_size x_vec y_vec in
  (c, r) ∈ zip col_vec row_vec <->
  (c ∈ x_vec /\ (r = 0 \/ r = y_size)) \/
  (r ∈ y_vec /\ (c = x_size \/ c = 0)).
Proof.
  pose proof (compound_zip x_size y_size x_vec y_vec) as Hz.
  destruct (Domain._compound_row_col_vectors _ _ _ _) as [col_vec row_vec].
  rewrite Hz, !elem_of_app, !list_elem_of_fmap.
  setoid_rewrite elem_of_reverse. split.
  - intros [(x & [= -> ->] & Hx) | [(y & [= -> ->] & Hy)
            | [(x & [= -> ->] & Hx) | (y & [= -> ->] & Hy)]]]; auto.
  - intros [[Hx [-> | ->]] | [Hy [-> | ->]]]; eauto 8.
Qed.

End RingFacts.

(** X4. The two vectors of [_compound_row_col_vectors] have the same
    length, twice the number of entries of both inputs. Taken in pairs they
    are: each entry of [x_vec] on the rows 0 and [y_size], and each entry
    of [y_vec] on the columns [x_size] and 0, and nothing else. *)
Theorem X4_compound_vectors x_size y_size x_vec y_vec :
  let '(col_vec, row_vec) :=
    Domain._compound_row_col_vectors x_size y_size x_vec y_vec in
  length col_vec = (2 * (length x_vec + length y_vec))%nat /\
  length row_vec = length col_vec /\
  forall c r,
    (c, r) ∈ zip col_vec row_vec <->
    (c ∈ x_vec /\ (r = 0 \/ r = y_size)) \/
    (r ∈ y_vec /\ (c = x_size \/ c = 0)).
Proof.
  pose proof (compound_lengths x_size y_size x_vec y_vec) as Hl.
  pose proof (compound_points x_size y_size x_vec y_vec) as Hp.
  destruct (Domain._compound_row_col_vectors _ _ _ _) as [col_vec row_vec].
  destruct Hl as [Hc Hr]. split; [done |]. split; [congruence |].
  intros c r. apply Hp.
Qed.

(** X5. [get_border] returns for no shape and no number of points: it
    raises the exception of its first call of [_get_row_col_vector], the
    one for the width, so that [transform_points] is never reached. The
    exception is [ZeroDivisionError] exactly when [nPoints] is 0. *)
Theorem X5_border_raises {Points : Type}
    (transform_points : list Z -> list Z -> Points) x_size y_size nPoints :
  exists e,
    Domain._get_row_col_vector x_size nPoints = Raise e /\
    Domain.get_border (y_size, x_size) transform_points nPoints = Raise e /\
    (e = ZeroDivisionError <-> nPoints = 0).
Proof.
  destruct (row_col_vector_raises x_size nPoints) as (e & E & Hz).
  exists e. split; [exact E |]. split; [| exact Hz].
  unfold Domain.get_border. by rewrite E.
Qed.

(** ** The pixel size *)

Lemma abs_clear_sign x : Float.signbit x = false -> Float.abs x = x.
Proof.
  destruct x as [[] | [] | | [] m e]; cbn; intros H;
    try discriminate; reflexivity.
Qed.

Lemma abs_neg x : Float.abs (Float.neg x) = Float.abs x.
Proof. destruct x; reflexivity. Qed.

Lemma abs_abs x : Float.abs (Float.abs x) = Float.abs x.
Proof. destruct x; reflexivity. Qed.

Lemma lookup_parsed_or_converted (d d' : extent_dict) te k :
  d' = d \/ d' = <["te" := te]> d -> k <> "te" -> d' !! k = d !! k.
Proof.
  intros [-> | ->] Hk; [done |]. by rewrite lookup_insert_ne.
Qed.

(** X6. Resolution in, pixel size out: for an extent string with a [tr]
    pair, parsed and (after an lle conversion or not) derived, the pixel
    size that [get_pixelsize_meters] reads from the derived transform for a
    spatial reference in metres is the [tr] pair itself. With a [ts] pair
    it is the width and the height of the box divided by the two sizes. *)
Theorem X6_pixel_size_of_extent :
  (forall s d d' te a b gt nx ny estimate,
     Domain._create_extent_dict s = Ok d -> d !! "tr" = Some [a; b] ->
     d' = d \/ d' = <["te" := te]> d ->
     Domain._get_geotransform d' = Ok (gt, nx, ny) ->
     Domain.get_pixelsize_meters (Some "metre") gt estimate = Ok (a, b)) /\
  (forall s d d' te a b gt nx ny estimate,
     Domain._create_extent_dict s = Ok d -> d !! "ts" = Some [a; b] ->
     d' = d \/ d' = <["te" := te]> d ->
     Domain._get_geotransform d' = Ok (gt, nx, ny) ->
     exists x0 y0 x1 y1 rest,
       d' !! "te" = Some (x0 :: y0 :: x1 :: y1 :: rest) /\
       Domain.get_pixelsize_meters (Some "metre") gt estimate =
         Ok (Float.div (Float.sub x1 x0) a,
             Float.abs (Float.div (Float.sub y1 y0) b))).
Proof.
  split.
  - intros s d d' te a b gt nx ny estimate Hp Htr Hd H.
    pose proof (create_no_sign_bit s d Hp) as Hs.
    assert (Float.signbit a = false /\ Float.signbit b = false) as [Sa Sb].
    { split; apply (Hs "tr" [a; b]); auto; rewrite !elem_of_cons; auto. }
    apply geotransform_Ok_inv in H
      as (x0 & y0 & x1 & y1 & rest & rx & ry & sx & sy
          & _ & _ & _ & Er & -> & _).
    unfold resolution_step in Er.
    rewrite (lookup_parsed_or_converted d d' te "tr" Hd), Htr in Er
      by discriminate.
    apply transform_tr_Ok_inv in Er
      as (a' & b' & [= <-] & [= <-] & -> & -> & _).
    unfold Domain.get_pixelsize_meters. rewrite bool_decide_eq_true_2 by done.
    cbn. by rewrite abs_neg, !abs_clear_sign.
  - intros s d d' te a b gt nx ny estimate Hp Hts Hd H.
    pose proof (create_no_sign_bit s d Hp) as Hs.
    assert (Float.signbit a = false) as Sa.
    { apply (Hs "ts" [a; b]); auto; rewrite !elem_of_cons; auto. }
    assert (d !! "tr" = None) as Htr.
    { apply create_two_keys in Hp
        as (k1 & k2 & v1 & v2 & H1 & H2 & Hne & -> & _).
      revert Hts. rewrite !lookup_insert. revert H1 H2.
      rewrite !elem_of_cons, !elem_of_nil.
      intros [-> | [-> | []]] [-> | [-> | []]];
        repeat (case_decide; try discriminate); done. }
    apply geotransform_Ok_inv in H
      as (x0 & y0 & x1 & y1 & rest & rx & ry & sx & sy
          & Ete & Lw%leb_false_signbit & _ & Er & -> & _).
    unfold resolution_step, getitem in Er.
    rewrite !(lookup_parsed_or_converted d d' te _ Hd), Htr, Hts in Er
      by discriminate.
    step_bind Er.
    apply transform_ts_Ok_inv in Er
      as (a' & b' & [= <- <-] & _ & _ & -> & -> & _).
    exists x0, y0, x1, y1, rest. split; [done |].
    unfold Domain.get_pixelsize_meters. rewrite bool_decide_eq_true_2 by done.
    cbn. rewrite abs_neg, abs_abs. f_equal. f_equal.
    apply abs_clear_sign, not_true_is_false. intros Hd'%div_signbit.
    rewrite Lw, Sa in Hd'. discriminate.
Qed.

(** The string [-te 0 0 100 50 -tr 10 10]. *)
Lemma X6_pixel_size_of_extent_witness :
  Domain.get_pixelsize_meters (Some "metre")
    [F 0; F 10; Float.zero; F 50; Float.zero; F (-10)]
    (Raise ValueError) = Ok (F 10, F 10).
Proof.
  apply (proj1 X6_pixel_size_of_extent
           "-te 0 0 100 50 -tr 10 10"
           (spec_tr [F 0; F 0; F 100; F 50] [F 10; F 10])
           (spec_tr [F 0; F 0; F 100; F 50] [F 10; F 10])
           [] (F 10) (F 10)
           [F 0; F 10; Float.zero; F 50; Float.zero; F (-10)] 10 5).
  - vm_compute. reflexivity.
  - vm_compute. reflexivity.
  - left. reflexivity.
  - vm_compute. reflexivity.
Defined.

(** ** Whitespace and text around the options *)

Section PaddingFacts.

Implicit Types (c a : ascii) (s t w p : string).

Lemma append_nil s : "" ++ s = s.
Proof. reflexivity. Qed.

Lemma append_cons c s t : String c s ++ t = String c (s ++ t).
Proof. reflexivity. Qed.

Lemma append_assoc s t u : (s ++ t) ++ u = s ++ (t ++ u).
Proof.
  induction s as [| c s IH]; [done |]. by rewrite !append_cons, IH.
Qed.

Lemma append_empty_r s : s ++ "" = s.
Proof. induction s as [| c s IH]; [done |]. by rewrite append_cons, IH. Qed.

Lemma lstrip_empty_rstrip w : Str.lstrip w = "" -> Str.rstrip w = "".
Proof.
  induction w as [| c w IH]; cbn; [done |].
  destruct (Str.isspace c); [| discriminate]. intros H. by rewrite IH.
Qed.

Lemma strip_empty_lstrip w : Str.strip w = "" -> Str.lstrip w = "".
Proof.
  unfold Str.strip. induction w as [| c w IH]; cbn; [done |].
  destruct (Str.isspace c) eqn:Hc; [exact IH |]. cbn. rewrite Hc.
  destruct (Str.rstrip w); discriminate.
Qed.

Lemma lstrip_app_space w s : Str.lstrip w = "" -> Str.lstrip (w ++ s) = Str.lstrip s.
Proof.
  induction w as [| c w IH]; rewrite ?append_nil, ?append_cons; cbn; [done |].
  destruct (Str.isspace c); [exact IH | discriminate].
Qed.

Lemma rstrip_app_space s w : Str.lstrip w = "" -> Str.rstrip (s ++ w) = Str.rstrip s.
Proof.
  intros Hw. induction s as [| c s IH]; rewrite ?append_nil, ?append_cons; cbn;
    [by apply lstrip_empty_rstrip |].
  by rewrite IH.
Qed.

Lemma strip_app_space s w : Str.lstrip w = "" -> Str.strip (s ++ w) = Str.strip s.
Proof.
  intros Hw. unfold Str.strip.
  induction s as [| c s IH]; rewrite ?append_nil, ?append_cons; cbn.
  - rewrite Hw. reflexivity.
  - destruct (Str.isspace c); [exact IH |].
    rewrite <- append_cons. by apply rstrip_app_space.
Qed.

Lemma strip_padded w1 s w2 :
  Str.strip w1 = "" -> Str.strip w2 = "" ->
  Str.strip (w1 ++ s ++ w2) = Str.strip s.
Proof.
  intros H1%strip_empty_lstrip H2%strip_empty_lstrip.
  unfold Str.strip. rewrite lstrip_app_space by done.
  by apply strip_app_space.
Qed.

Lemma rstrip_hyphen s : Str.rstrip (String "-" s) = String "-" (Str.rstrip s).
Proof. cbn. by destruct (Str.rstrip s). Qed.

Lemma rstrip_app_nonempty p t :
  Str.rstrip t <> "" -> Str.rstrip (p ++ t) = p ++ Str.rstrip t.
Proof.
  intros Ht. induction p as [| c p IH]; rewrite ?append_nil, ?append_cons; cbn; [done |].
  rewrite IH. destruct (p ++ Str.rstrip t) eqn:E; [| done].
  destruct p; [by destruct Ht | discriminate].
Qed.

Lemma lstrip_app_hyphen p s :
  Str.lstrip (p ++ String "-" s) = Str.lstrip p ++ String "-" s.
Proof.
  induction p as [| c p IH]; rewrite ?append_nil, ?append_cons; cbn; [done |].
  by destruct (Str.isspace c).
Qed.

Lemma split_on_app c p s :
  Str.count c p = 0%nat ->
  Str.split_on c (p ++ String c s) = p :: Str.split_on c s.
Proof.
  induction p as [| a p IH]; rewrite ?append_nil, ?append_cons; cbn;
    [by rewrite Ascii.eqb_refl |].
  destruct (Ascii.eqb a c); [discriminate |]. intros H. by rewrite IH.
Qed.

Lemma split_on_none c p : Str.count c p = 0%nat -> Str.split_on c p = [p].
Proof.
  induction p as [| a p IH]; cbn; [done |].
  destruct (Ascii.eqb a c); [discriminate |]. intros H. by rewrite IH.
Qed.

(** The groups of a string that has text in front of its first hyphen. *)
Lemma groups_prefix p s :
  Str.count "-" p = 0%nat ->
  groups (p ++ String "-" s) = Str.split_on "-" (Str.rstrip s).
Proof.
  intros Hp. unfold groups, Str.strip.
  rewrite lstrip_app_hyphen, rstrip_app_nonempty, rstrip_hyphen
    by (rewrite rstrip_hyphen; discriminate).
  rewrite split_on_app; [done |]. by rewrite count_lstrip.
Qed.

Lemma create_groups_ext s s' :
  groups s = groups s' ->
  Domain._create_extent_dict s = Domain._create_extent_dict s'.
Proof. intros H. by rewrite !create_unfold, H. Qed.

End PaddingFacts.

(** X7. Whitespace around an extent string changes nothing: with any
    whitespace in front and behind, the parser returns the same dictionary
    or raises the same exception. *)
Theorem X7_surrounding_whitespace w1 s w2 :
  Str.strip w1 = "" -> Str.strip w2 = "" ->
  Domain._create_extent_dict (w1 ++ s ++ w2) = Domain._create_extent_dict s.
Proof.
  intros H1 H2. unfold Domain._create_extent_dict.
  by rewrite (strip_padded w1 s w2 H1 H2).
Qed.

(** A tab and a newline around the string of the class documentation. *)
Lemma X7_surrounding_whitespace_witness :
  Domain._create_extent_dict
    (String "009" " " ++ ext_te_tr ++ String "010" "") =
  Domain._create_extent_dict ext_te_tr.
Proof.
  apply (X7_surrounding_whitespace (String "009" " ") ext_te_tr
           (String "010" "")); reflexivity.
Defined.

(** X8. The text in front of the first hyphen is never looked at: a
    string with any hyphen-free text before its first option is parsed
    like the string without that text. *)
Theorem X8_text_before_first_option p s :
  Str.count "-" p = 0%nat ->
  Domain._create_extent_dict (p ++ String "-" s) =
    Domain._create_extent_dict (String "-" s).
Proof.
  intros Hp. apply create_groups_ext.
  rewrite (groups_prefix p s Hp).
  symmetry. apply (groups_prefix "" s). reflexivity.
Qed.

(** The words [gdalwarp now] in front of the string of the class
    documentation. *)
Lemma X8_text_before_first_option_witness :
  Domain._create_extent_dict
    ("gdalwarp now " ++ String "-" "te 100 2000 300 10000 -tr 300 200") =
  Domain._create_extent_dict
    (String "-" "te 100 2000 300 10000 -tr 300 200").
Proof.
  apply (X8_text_before_first_option "gdalwarp now "
           "te 100 2000 300 10000 -tr 300 200").
  reflexivity.
Defined.

(** ** Strings in the documented format *)

Section FormatFacts.

Implicit Types (c a : ascii) (s t w p : string).

Lemma rstrip_head s c r : Str.rstrip s = String c r -> exists s', s = String c s'.
Proof.
  destruct s as [| a s]; cbn; [discriminate |].
  destruct (Str.rstrip s); [destruct (Str.isspace a) |];
    intros [= <- _]; eauto.
Qed.

Lemma rstrip_empty_lstrip s : Str.rstrip s = "" -> Str.lstrip s = "".
Proof.
  induction s as [| a s IH]; cbn; [done |].
  destruct (Str.rstrip s); [| discriminate].
  destruct (Str.isspace a); [auto | discriminate].
Qed.

Lemma split_space_only s : Str.lstrip s = "" -> Str.split s = [].
Proof.
  induction s as [| a s IH]; cbn; [done |].
  destruct (Str.isspace a); [exact IH | discriminate].
Qed.

Lemma split_cons a s :
  Str.split (String a s) =
    if Str.isspace a then Str.split s
    else match s with
         | EmptyString => [String a EmptyString]
         | String c' _ =>
             if Str.isspace c' then String a EmptyString :: Str.split s
             else match Str.split s with
                  | field :: fields => String a field :: fields
                  | [] => [String a EmptyString]
                  end
         end.
Proof. reflexivity. Qed.

Lemma split_rstrip s : Str.split (Str.rstrip s) = Str.split s.
Proof.
  induction s as [| a s IH]; [done |].
  cbn [Str.rstrip]. destruct (Str.rstrip s) as [| c0 r0] eqn:R.
  - pose proof (rstrip_empty_lstrip s R) as L.
    pose proof (split_space_only s L) as Hs.
    rewrite (split_cons a s), Hs.
    destruct (Str.isspace a) eqn:Ha; [done |].
    rewrite (split_cons a ""), Ha.
    destruct s as [| c s']; [done |].
    cbn in L. destruct (Str.isspace c); [done | discriminate].
  - destruct (rstrip_head s c0 r0 R) as [s0 ->].
    rewrite (split_cons a (String c0 r0)), (split_cons a (String c0 s0)), IH.
    reflexivity.
Qed.

Lemma split_app_space s w : Str.lstrip w = "" -> Str.split (s ++ w) = Str.split s.
Proof.
  intros Hw. by rewrite <- split_rstrip, rstrip_app_space, split_rstrip.
Qed.

Lemma split_token_space t c s :
  t <> "" -> no_space t = true -> Str.isspace c = true ->
  Str.split (t ++ String c s) = t :: Str.split s.
Proof.
  intros Ht Hn Hc. induction t as [| a t IH]; [done |].
  cbn in Hn. apply andb_true_iff in Hn as [Ha%negb_true_iff Hn].
  rewrite append_cons, split_cons, Ha.
  destruct t as [| b t].
  - rewrite append_nil, Hc. by rewrite (split_cons c s), Hc.
  - rewrite append_cons. pose proof Hn as Hn'. cbn in Hn'.
    apply andb_true_iff in Hn' as [Hb%negb_true_iff _]. rewrite Hb.
    rewrite <- append_cons, IH by done. reflexivity.
Qed.

Lemma split_plain t : t <> "" -> no_space t = true -> Str.split t = [t].
Proof.
  intros Ht Hn. induction t as [| a t IH]; [done |].
  cbn in Hn. apply andb_true_iff in Hn as [Ha%negb_true_iff Hn].
  rewrite split_cons, Ha. destruct t as [| b t]; [done |].
  pose proof Hn as Hn'. cbn in Hn'.
  apply andb_true_iff in Hn' as [Hb%negb_true_iff _]. rewrite Hb.
  by rewrite IH.
Qed.

Lemma split_join tokens :
  Forall plain_token tokens -> Str.split (Str.join tokens) = tokens.
Proof.
  induction 1 as [| t l (Ht & Hn & _) Hl IH]; [done |].
  destruct l as [| t' l]; [by apply split_plain |].
  change (Str.join (t :: t' :: l)) with (t ++ String " " (Str.join (t' :: l))).
  by rewrite split_token_space, IH.
Qed.

(** The tokens of a group: its name and its values. *)
Lemma split_group name tokens w :
  plain_token name -> Forall plain_token tokens -> Str.lstrip w = "" ->
  Str.split (name ++ " " ++ Str.join tokens ++ w) = name :: tokens.
Proof.
  intros (Ht & Hn & _) Hl Hw.
  change (name ++ " " ++ Str.join tokens ++ w)
    with (name ++ String " " (Str.join tokens ++ w)).
  by rewrite split_token_space, split_app_space, split_join.
Qed.

Lemma count_group name tokens w :
  plain_token name -> Forall plain_token tokens -> Str.count "-" w = 0%nat ->
  Str.count "-" (name ++ " " ++ Str.join tokens ++ w) = 0%nat.
Proof.
  intros (_ & _ & Hc) Hl Hw.
  rewrite !count_app, count_join, Hc, Hw by reflexivity.
  assert (list_sum (map (Str.count "-") tokens) = 0%nat) as ->; [| done].
  induction Hl as [| t l (_ & _ & Ht) _ IH]; [done |].
  simpl. by rewrite Ht, IH.
Qed.

Lemma create_good s g0 g1 n0 f0 n1 f1 :
  groups s = [g0; g1] ->
  good_group ["te"; "lle"] 4 (Str.split g0) n0 f0 ->
  good_group ["ts"; "tr"] 2 (Str.split g1) n1 f1 ->
  Domain._create_extent_dict s = Ok (<[n1 := f1]> (<[n0 := f0]> ∅)).
Proof.
  intros G H0 H1.
  rewrite create_unfold, G, (check_good _ _ _ _ _ H0),
    (check_good _ _ _ _ _ H1).
  destruct H0 as (t0 & -> & _ & T0 & _), H1 as (t1 & -> & _ & T1 & _).
  cbn. rewrite T0. cbn. rewrite T1. reflexivity.
Qed.

End FormatFacts.

(** X9. Every string in the documented format is accepted and gives the
    floats of its tokens: for a first option [te] or [lle] with four
    numeric tokens and a second option [ts] or [tr] with two, the tokens
    being plain (not empty, without whitespace or hyphen), the parser
    returns the dictionary that maps each option to the values of
    [float] on its tokens. *)
Theorem X9_documented_format opt1 tokens1 values1 opt2 tokens2 values2 :
  opt1 ∈ ["te"; "lle"] -> opt2 ∈ ["ts"; "tr"] ->
  Forall plain_token tokens1 -> Forall plain_token tokens2 ->
  traverse Float.py_float tokens1 = Ok values1 -> length values1 = 4%nat ->
  traverse Float.py_float tokens2 = Ok values2 -> length values2 = 2%nat ->
  Domain._create_extent_dict (extent_string opt1 tokens1 opt2 tokens2) =
    Ok (<[opt2 := values2]> (<[opt1 := values1]> ∅)).
Proof.
  intros H1 H2 P1 P2 T1 L1 T2 L2.
  assert (plain_token opt1) as Po1.
  { revert H1. rewrite !elem_of_cons, elem_of_nil.
    intros [-> | [-> | []]]; by repeat split. }
  assert (plain_token opt2) as Po2.
  { revert H2. rewrite !elem_of_cons, elem_of_nil.
    intros [-> | [-> | []]]; by repeat split. }
  set (g0 := opt1 ++ " " ++ Str.join tokens1 ++ " ").
  set (g1 := opt2 ++ " " ++ Str.join tokens2 ++ "").
  assert (Str.split g0 = opt1 :: tokens1) as S0 by by apply split_group.
  assert (Str.split g1 = opt2 :: tokens2) as S1 by by apply split_group.
  assert (Str.count "-" g0 = 0%nat) as C0 by by apply count_group.
  assert (Str.count "-" g1 = 0%nat) as C1 by by apply count_group.
  assert (extent_string opt1 tokens1 opt2 tokens2 = "" ++ String "-" (g0 ++ String "-" g1))
    as ->.
  { unfold extent_string, g0, g1.
    rewrite append_empty_r, !append_assoc, !append_cons, !append_nil.
    reflexivity. }
  apply (create_good _ g0 (Str.rstrip g1)).
  - rewrite groups_prefix by reflexivity.
    assert (Str.rstrip (String "-" g1) <> "") by (rewrite rstrip_hyphen; discriminate).
    rewrite rstrip_app_nonempty, rstrip_hyphen, split_on_app by done.
    rewrite split_on_none; [done |]. by rewrite count_rstrip.
  - exists tokens1. by rewrite S0.
  - exists tokens2. by rewrite split_rstrip, S1.
Qed.

(** The string of the class documentation, built from its tokens. *)
Lemma X9_documented_format_witness :
  Domain._create_extent_dict
    (extent_string "te" ["100"; "2000"; "300"; "10000"] "tr" ["300"; "200"]) =
    Ok (<["tr" := [F 300; F 200]]>
          (<["te" := [F 100; F 2000; F 300; F 10000]]> ∅)).
Proof.
  apply (X9_documented_format
           "te" ["100"; "2000"; "300"; "10000"] [F 100; F 2000; F 300; F 10000]
           "tr" ["300"; "200"] [F 300; F 200]).
  - apply elem_of_cons. left. reflexivity.
  - apply elem_of_cons. right. apply elem_of_cons. left. reflexivity.
  - repeat constructor; discriminate.
  - repeat constructor; discriminate.
  - vm_compute. reflexivity.
  - reflexivity.
  - vm_compute. reflexivity.
  - reflexivity.
Defined.

(** ** The keys and the lists that the derivation reads *)

Section KeyFacts.

Lemma geotransform_reads (d d' : extent_dict) :
  d !! "te" = d' !! "te" -> d !! "tr" = d' !! "tr" ->
  (d !! "tr" = None -> d !! "ts" = d' !! "ts") ->
  Domain._get_geotransform d = Domain._get_geotransform d'.
Proof.
  intros Hte Htr Hts. unfold Domain._get_geotransform, getitem.
  rewrite <- Hte, <- Htr. destruct (d !! "tr"); [reflexivity |].
  by rewrite <- Hts.
Qed.

End KeyFacts.

(** X10. The derivation reads the keys [te], [tr] and [ts] and nothing
    else, and [tr] wins over [ts]: two dictionaries that agree on [te] and
    [tr], and on [ts] when [tr] is absent, give the same result. So a
    stored [lle] key, or a [ts] pair beside a [tr] pair, has no effect. *)
Theorem X10_keys_read :
  (forall d d' : extent_dict,
     d !! "te" = d' !! "te" -> d !! "tr" = d' !! "tr" ->
     (d !! "tr" = None -> d !! "ts" = d' !! "ts") ->
     Domain._get_geotransform d = Domain._get_geotransform d') /\
  (forall (d : extent_dict) k v,
     k <> "te" -> k <> "tr" -> k <> "ts" ->
     Domain._get_geotransform (<[k := v]> d) = Domain._get_geotransform d) /\
  (forall (d : extent_dict) v,
     is_Some (d !! "tr") ->
     Domain._get_geotransform (<["ts" := v]> d) = Domain._get_geotransform d).
Proof.
  split; [exact geotransform_reads |]. split.
  - intros d k v H1 H2 H3.
    apply geotransform_reads; intros; by rewrite lookup_insert_ne.
  - intros d v [tr Htr]. apply geotransform_reads.
    + by rewrite lookup_insert_ne.
    + by rewrite lookup_insert_ne.
    + rewrite lookup_insert_ne by done. congruence.
Qed.

(** A [ts] pair stored beside the [tr] pair of the box [0,0,100,50]. *)
Lemma X10_keys_read_witness :
  Domain._get_geotransform
    (<["ts" := [F 7; F 7]]> (spec_tr [F 0; F 0; F 100; F 50] [F 10; F 10])) =
  Domain._get_geotransform (spec_tr [F 0; F 0; F 100; F 50] [F 10; F 10]).
Proof.
  apply (proj2 (proj2 X10_keys_read)
           (spec_tr [F 0; F 0; F 100; F 50] [F 10; F 10]) [F 7; F 7]).
  eexists. vm_compute. reflexivity.
Defined.

(** X11. Missing keys: without a [te] key the derivation raises
    [KeyError('te')], which is what happens on a parsed lle dictionary
    that was not converted; with a box of positive width and height but
    neither [tr] nor [ts] it raises [KeyError('ts')]; the extent check
    comes first, so a box that is not positive raises [OptionError] also
    when [tr] and [ts] are missing. *)
Theorem X11_missing_keys :
  (forall d : extent_dict,
     d !! "te" = None -> Domain._get_geotransform d = Raise (KeyError "te")) /\
  (forall s d,
     Domain._create_extent_dict s = Ok d -> is_Some (d !! "lle") ->
     Domain._get_geotransform d = Raise (KeyError "te")) /\
  (forall (d : extent_dict) x0 y0 x1 y1 rest,
     d !! "te" = Some (x0 :: y0 :: x1 :: y1 :: rest) ->
     d !! "tr" = None -> d !! "ts" = None ->
     Domain._get_geotransform d =
       if Float.leb (Float.sub x1 x0) Float.zero
          || Float.leb (Float.sub y1 y0) Float.zero
       then Raise (OptionError Msg_extent_illegal)
       else Raise (KeyError "ts")).
Proof.
  assert (forall d : extent_dict, d !! "te" = None ->
            Domain._get_geotransform d = Raise (KeyError "te")) as Hte.
  { intros d H. unfold Domain._get_geotransform, getitem. by rewrite H. }
  split; [exact Hte |]. split.
  - intros s d Hp Hl. apply Hte.
    destruct (converted_three_keys s d [] Hp Hl) as (_ & _ & Hn).
    by apply not_elem_of_dom.
  - intros d x0 y0 x1 y1 rest Ete Etr Ets.
    rewrite (geotransform_unfold d x0 y0 x1 y1 rest Ete). cbn zeta.
    destruct (_ || _); [reflexivity |].
    unfold resolution_step, getitem. by rewrite Etr, Ets.
Qed.

(** The parsed lle string, not converted. *)
Lemma X11_missing_keys_witness :
  Domain._get_geotransform dict_lle = Raise (KeyError "te").
Proof.
  apply (proj1 (proj2 X11_missing_keys) ext_lle dict_lle).
  - vm_compute. reflexivity.
  - eexists. vm_compute. reflexivity.
Defined.

(** X12. List lengths, for a box of positive width and height: a [ts]
    list must have exactly two entries, any other length raises
    [ValueError]; of a [tr] list only the first two entries are read, a
    longer list gives the result of its first two entries and a shorter
    one raises [IndexError]; of a [te] list only the first four entries
    are read, and a shorter one raises [IndexError]. *)
Theorem X12_list_lengths :
  (forall (d : extent_dict) x0 y0 x1 y1 rest ts_arr,
     d !! "te" = Some (x0 :: y0 :: x1 :: y1 :: rest) ->
     d !! "tr" = None -> d !! "ts" = Some ts_arr ->
     Float.leb (Float.sub x1 x0) Float.zero = false ->
     Float.leb (Float.sub y1 y0) Float.zero = false ->
     length ts_arr <> 2%nat ->
     Domain._get_geotransform d = Raise ValueError) /\
  (forall (d : extent_dict) x0 y0 x1 y1 rest tr_arr,
     d !! "te" = Some (x0 :: y0 :: x1 :: y1 :: rest) ->
     d !! "tr" = Some tr_arr ->
     Float.leb (Float.sub x1 x0) Float.zero = false ->
     Float.leb (Float.sub y1 y0) Float.zero = false ->
     (length tr_arr < 2)%nat ->
     Domain._get_geotransform d = Raise IndexError) /\
  (forall (d : extent_dict) a b more,
     d !! "tr" = Some (a :: b :: more) ->
     Domain._get_geotransform d =
       Domain._get_geotransform (<["tr" := [a; b]]> d)) /\
  (forall (d : extent_dict) x0 y0 x1 y1 rest,
     d !! "te" = Some (x0 :: y0 :: x1 :: y1 :: rest) ->
     Domain._get_geotransform d =
       Domain._get_geotransform (<["te" := [x0; y0; x1; y1]]> d)) /\
  (forall (d : extent_dict) te,
     d !! "te" = Some te -> (length te < 4)%nat ->
     Domain._get_geotransform d = Raise IndexError).
Proof.
  split; [| split; [| split; [| split]]].
  - intros d x0 y0 x1 y1 rest ts_arr Ete Etr Ets Lw Lh Hlen.
    rewrite (geotransform_unfold d x0 y0 x1 y1 rest Ete). cbn zeta.
    rewrite Lw, Lh. cbn [orb]. unfold resolution_step, getitem.
    rewrite Etr, Ets. cbn [mbind result_bind].
    destruct ts_arr as [| a [| b [| c l]]]; try reflexivity. by destruct Hlen.
  - intros d x0 y0 x1 y1 rest tr_arr Ete Etr Lw Lh Hlen.
    rewrite (geotransform_unfold d x0 y0 x1 y1 rest Ete). cbn zeta.
    rewrite Lw, Lh. cbn [orb]. unfold resolution_step. rewrite Etr.
    destruct tr_arr as [| a [| b l]]; try reflexivity. cbn in Hlen. lia.
  - intros d a b more Etr.
    unfold Domain._get_geotransform, getitem.
    rewrite (lookup_insert_ne d "tr" "te") by done.
    rewrite lookup_insert_eq, Etr. reflexivity.
  - intros d x0 y0 x1 y1 rest Ete.
    rewrite (geotransform_unfold d x0 y0 x1 y1 rest Ete).
    rewrite (geotransform_unfold (<["te" := [x0; y0; x1; y1]]> d)
               x0 y0 x1 y1 []) by apply lookup_insert_eq.
    unfold resolution_step, getitem. by rewrite !lookup_insert_ne.
  - intros d te Ete Hlen.
    unfold Domain._get_geotransform, getitem. rewrite Ete.
    destruct te as [| x0 [| y0 [| x1 [| y1 rest]]]]; try reflexivity.
    cbn in Hlen. lia.
Qed.

(** A [ts] list of three sizes on the box [0,0,100,100]. *)
Lemma X12_list_lengths_witness :
  Domain._get_geotransform
    (spec_ts [F 0; F 0; F 100; F 100] [F 10; F 10; F 10]) = Raise ValueError.
Proof.
  apply (proj1 X12_list_lengths
           (spec_ts [F 0; F 0; F 100; F 100] [F 10; F 10; F 10])
           (F 0) (F 0) (F 100) (F 100) [] [F 10; F 10; F 10]);
    try (vm_compute; reflexivity).
  cbn. lia.
Defined.

(** ** The order of floats, and the converted box *)

Section OrderFacts.

Implicit Types x y z : float.

Lemma leb_refl x : x <> Float.nan -> Float.leb x x = true.
Proof.
  destruct x as [[] | [] | | [] m e]; intros H; try reflexivity;
    try (by destruct H); unfold Float.leb, SFleb; cbn;
    rewrite Z.compare_refl, Pos.compare_cont_refl; reflexivity.
Qed.

Lemma ltb_leb x y : Float.ltb x y = true -> Float.leb x y = true.
Proof.
  unfold Float.ltb, Float.leb, SFltb, SFleb.
  by destruct (SFcompare x y) as [[] |].
Qed.

Lemma ltb_not_nan x y : Float.ltb x y = true -> x <> Float.nan.
Proof. intros H ->. discriminate. Qed.

Lemma leb_trans x y z :
  Float.leb x y = true -> Float.leb y z = true -> Float.leb x z = true.
Proof.
  unfold Float.leb, SFleb.
  destruct x as [[] | [] | | [] mx ex], y as [[] | [] | | [] my ey],
    z as [[] | [] | | [] mz ez]; cbn; try done;
    change (Pos.compare_cont Eq) with Pos.compare;
    destruct (Z.compare_spec ex ey), (Z.compare_spec ey ez),
      (Z.compare_spec ex ez); subst; try done; try lia;
    destruct (Pos.compare_spec mx my), (Pos.compare_spec my mz),
      (Pos.compare_spec mx mz); subst; cbn; try done; lia.
Qed.

Lemma py_min_below x l : x <> Float.nan -> Float.leb (Float.py_min x l) x = true.
Proof.
  revert x. induction l as [| i l IH]; intros x Hx; cbn.
  - by apply leb_refl.
  - fold (Float.py_min (if Float.ltb i x then i else x) l).
    destruct (Float.ltb i x) eqn:E; [| by apply IH].
    eapply leb_trans; [apply IH; by eapply ltb_not_nan | by apply ltb_leb].
Qed.

Lemma py_max_above x l : x <> Float.nan -> Float.leb x (Float.py_max x l) = true.
Proof.
  revert x. induction l as [| i l IH]; intros x Hx; cbn.
  - by apply leb_refl.
  - fold (Float.py_max (if Float.ltb x i then i else x) l).
    destruct (Float.ltb x i) eqn:E; [| by apply IH].
    eapply leb_trans; [by apply ltb_leb |]. apply IH.
    intros ->. by destruct x.
Qed.

Lemma py_min_elem x l : Float.py_min x l ∈ x :: l.
Proof.
  revert x. induction l as [| i l IH]; intros x; cbn; [by left |].
  fold (Float.py_min (if Float.ltb i x then i else x) l).
  specialize (IH (if Float.ltb i x then i else x)).
  apply elem_of_cons in IH as [-> | IH].
  - destruct (Float.ltb i x); [right; left | left]; done.
  - by do 2 right.
Qed.

Lemma py_max_elem x l : Float.py_max x l ∈ x :: l.
Proof.
  revert x. induction l as [| i l IH]; intros x; cbn; [by left |].
  fold (Float.py_max (if Float.ltb x i then i else x) l).
  specialize (IH (if Float.ltb x i then i else x)).
  apply elem_of_cons in IH as [-> | IH].
  - destruct (Float.ltb x i); [right; left | left]; done.
  - by do 2 right.
Qed.

Lemma py_min_nan l : Float.py_min Float.nan l = Float.nan.
Proof.
  induction l as [| i l IH]; [done |]. cbn.
  replace (Float.ltb i Float.nan) with false by (by destruct i as [| [] | |]).
  exact IH.
Qed.

Lemma py_max_nan l : Float.py_max Float.nan l = Float.nan.
Proof. induction l as [| i l IH]; [done |]. exact IH. Qed.

End OrderFacts.

(** X13. The box that the lle conversion stores: its four entries are
    taken from the transformed corners, [te[0]] and [te[2]] among the four
    x values and [te[1]] and [te[3]] among the four y values. When the
    transform of the first corner (lonmin, latmax) has no NaN coordinate,
    no entry is NaN and the box is ordered, [te[0] <= te[2]] and
    [te[1] <= te[3]]. A NaN in later corners is skipped, while a NaN
    coordinate of the first corner becomes both the minimum and the
    maximum. *)
Theorem X13_converted_box
    (TransformPoint : float -> float -> float * float * float)
    (d : extent_dict) l0 l1 l2 l3 rest x1 y1 z1 x2 y2 z2 x3 y3 z3 x4 y4 z4 :
  d !! "lle" = Some (l0 :: l1 :: l2 :: l3 :: rest) ->
  TransformPoint l0 l3 = (x1, y1, z1) -> TransformPoint l2 l3 = (x2, y2, z2) ->
  TransformPoint l2 l1 = (x3, y3, z3) -> TransformPoint l0 l1 = (x4, y4, z4) ->
  exists minX minY maxX maxY,
    Domain.converted_te TransformPoint d = Ok [minX; minY; maxX; maxY] /\
    minX ∈ [x1; x2; x3; x4] /\ maxX ∈ [x1; x2; x3; x4] /\
    minY ∈ [y1; y2; y3; y4] /\ maxY ∈ [y1; y2; y3; y4] /\
    (x1 <> Float.nan ->
     minX <> Float.nan /\ maxX <> Float.nan /\ Float.leb minX maxX = true) /\
    (y1 <> Float.nan ->
     minY <> Float.nan /\ maxY <> Float.nan /\ Float.leb minY maxY = true) /\
    (x1 = Float.nan -> minX = Float.nan /\ maxX = Float.nan) /\
    (y1 = Float.nan -> minY = Float.nan /\ maxY = Float.nan).
Proof.
  intros El E1 E2 E3 E4.
  exists (Float.py_min x1 [x2; x3; x4]), (Float.py_min y1 [y2; y3; y4]),
         (Float.py_max x1 [x2; x3; x4]), (Float.py_max y1 [y2; y3; y4]).
  split.
  { unfold Domain.converted_te, getitem. rewrite El. cbn.
    by rewrite E1, E2, E3, E4. }
  assert (forall v l, v <> Float.nan ->
            Float.py_min v l <> Float.nan /\ Float.py_max v l <> Float.nan /\
            Float.leb (Float.py_min v l) (Float.py_max v l) = true) as Hord.
  { intros v l Hv. pose proof (py_min_below v l Hv) as Hlo.
    pose proof (py_max_above v l Hv) as Hhi.
    split; [intros E; rewrite E in Hlo; discriminate |].
    split; [intros E; rewrite E in Hhi; by destruct v |].
    by eapply leb_trans. }
  split; [apply py_min_elem |]. split; [apply py_max_elem |].
  split; [apply py_min_elem |]. split; [apply py_max_elem |].
  split; [apply Hord |]. split; [apply Hord |].
  split; intros ->; by rewrite py_min_nan, py_max_nan.
Qed.

(** The lle box [10,30,55,60] under the identity. *)
Lemma X13_converted_box_witness :
  exists minX minY maxX maxY,
    Domain.converted_te identity_transform dict_lle
      = Ok [minX; minY; maxX; maxY] /\
    minX ∈ [F 10; F 55; F 55; F 10] /\ maxX ∈ [F 10; F 55; F 55; F 10] /\
    minY ∈ [F 60; F 60; F 30; F 30] /\ maxY ∈ [F 60; F 60; F 30; F 30] /\
    (F 10 <> Float.nan ->
     minX <> Float.nan /\ maxX <> Float.nan /\ Float.leb minX maxX = true) /\
    (F 60 <> Float.nan ->
     minY <> Float.nan /\ maxY <> Float.nan /\ Float.leb minY maxY = true) /\
    (F 10 = Float.nan -> minX = Float.nan /\ maxX = Float.nan) /\
    (F 60 = Float.nan -> minY = Float.nan /\ maxY = Float.nan).
Proof.
  apply (X13_converted_box identity_transform dict_lle
           (F 10) (F 30) (F 55) (F 60) []
           (F 10) (F 60) Float.zero (F 55) (F 60) Float.zero
           (F 55) (F 30) Float.zero (F 10) (F 30) Float.zero);
    vm_compute; reflexivity.
Defined.

(** ** The constructor path *)

Section InitFacts.

Variable TransformPoint : float -> float -> float * float * float.

(** The dictionary that [__init__] keeps, for a parsed [d]. *)
Lemma init_unfold ext (h : heap) d :
  Domain._create_extent_dict ext = Ok d ->
  let r := fresh (dom h) in
  Domain.init_srs_ext TransformPoint ext h =
    if bool_decide ("lle" ∈ dom d) then
      match Domain.converted_te TransformPoint d with
      | Ok te =>
          (match Domain._get_geotransform (<["te" := te]> d) with
           | Ok geo => Ok (r, geo)
           | Raise e => Raise e
           end,
           <[r := <["te" := te]> d]> (<[r := d]> h))
      | Raise e => (Raise e, <[r := d]> h)
      end
    else
      (match Domain._get_geotransform d with
       | Ok geo => Ok (r, geo)
       | Raise e => Raise e
       end,
       <[r := d]> h).
Proof.
  intros Hp. cbn zeta. unfold Domain.init_srs_ext. rewrite Hp.
  case_bool_decide.
  - unfold Domain._convert_extentDic. rewrite lookup_insert_eq. cbn.
    destruct (Domain.converted_te TransformPoint d) as [te | e].
    + rewrite lookup_insert_eq. cbn.
      by destruct (Domain._get_geotransform _) as [geo | e].
    + reflexivity.
  - rewrite lookup_insert_eq. cbn.
    by destruct (Domain._get_geotransform d) as [geo | e].
Qed.

Lemma init_frame ext (h : heap) r :
  is_Some (h !! r) ->
  (Domain.init_srs_ext TransformPoint ext h).2 !! r = h !! r.
Proof.
  intros Hr. destruct (Domain._create_extent_dict ext) as [d | e] eqn:Hp.
  - assert (fresh (dom h) <> r) as Hne.
    { intros <-. apply elem_of_dom in Hr. by apply is_fresh in Hr. }
    rewrite (init_unfold ext h d Hp). cbn zeta.
    destruct (bool_decide _); [destruct (Domain.converted_te _ _) |]; cbn;
      by rewrite !lookup_insert_ne.
  - unfold Domain.init_srs_ext. by rewrite Hp.
Qed.

End InitFacts.

(** X14. The path of [__init__] for a spatial reference and an extent
    string. When it returns, the reference it returns is new, the
    dictionary kept there is the parsed one, with a [te] key stored by the
    conversion exactly when it was parsed with [lle], and the transform
    and size are the derivation of that very dictionary. No dictionary
    that existed before is changed, whatever the outcome, and when the
    parser raises, nothing is allocated. *)
Theorem X14_init_path
    (TransformPoint : float -> float -> float * float * float) :
  (forall ext (h : heap) r geo h',
     Domain.init_srs_ext TransformPoint ext h = (Ok (r, geo), h') ->
     h !! r = None /\
     exists d0 d,
       Domain._create_extent_dict ext = Ok d0 /\
       h' = <[r := d]> h /\
       (d0 !! "lle" = None /\ d = d0 \/
        is_Some (d0 !! "lle") /\
        exists te, Domain.converted_te TransformPoint d0 = Ok te /\
                   d = <["te" := te]> d0) /\
       Domain._get_geotransform d = Ok geo) /\
  (forall ext (h : heap) r,
     is_Some (h !! r) ->
     (Domain.init_srs_ext TransformPoint ext h).2 !! r = h !! r) /\
  (forall ext (h : heap) e,
     Domain._create_extent_dict ext = Raise e ->
     Domain.init_srs_ext TransformPoint ext h = (Raise e, h)).
Proof.
  split; [| split; [apply init_frame |]].
  - intros ext h r geo h' H.
    destruct (Domain._create_extent_dict ext) as [d0 | e] eqn:Hp;
      [| unfold Domain.init_srs_ext in H; by rewrite Hp in H].
    rewrite (init_unfold TransformPoint ext h d0 Hp) in H. cbn zeta in H.
    assert (h !! fresh (dom h) = None) as Hfresh
      by apply not_elem_of_dom, is_fresh.
    case_bool_decide as Hl.
    + destruct (Domain.converted_te TransformPoint d0) as [te | e] eqn:Ec;
        [| discriminate].
      destruct (Domain._get_geotransform (<["te" := te]> d0)) as [g | e] eqn:Eg;
        [| discriminate].
      injection H as <- <- <-. split; [done |].
      exists d0, (<["te" := te]> d0). split; [done |].
      split; [by rewrite insert_insert_eq |]. split; [| done].
      right. split; [by apply elem_of_dom | eauto].
    + destruct (Domain._get_geotransform d0) as [g | e] eqn:Eg; [| discriminate].
      injection H as <- <- <-. split; [done |].
      exists d0, d0. split; [done |]. split; [done |]. split; [| done].
      left. split; [by apply not_elem_of_dom | done].
  - intros ext h e Hp. unfold Domain.init_srs_ext. by rewrite Hp.
Qed.

(** The lle string on an empty heap. *)
Lemma X14_init_path_witness :
  (∅ : heap) !! 0%nat = None /\
  exists d0 d,
    Domain._create_extent_dict "-lle 10 30 55 60 -ts 5 10" = Ok d0 /\
    {[ 0%nat := {[ "lle" := [F 10; F 30; F 55; F 60];
                   "te" := [F 10; F 30; F 55; F 60];
                   "ts" := [F 5; F 10] ]} ]} = <[0%nat := d]> (∅ : heap) /\
    (d0 !! "lle" = None /\ d = d0 \/
     is_Some (d0 !! "lle") /\
     exists te, Domain.converted_te identity_transform d0 = Ok te /\
                d = <["te" := te]> d0) /\
    Domain._get_geotransform d =
      Ok ([F 10; F 9; Float.zero; F 60; Float.zero; F (-3)], 5, 10).
Proof.
  apply (proj1 (X14_init_path identity_transform)
           "-lle 10 30 55 60 -ts 5 10" ∅ 0%nat
           ([F 10; F 9; Float.zero; F 60; Float.zero; F (-3)], 5, 10)).
  vm_compute. reflexivity.
Defined.

(** ** When the derivation succeeds *)

Lemma py_int_Ok_iff x : is_Ok (Float.py_int x) <-> Float.is_finite x = true.
Proof.
  destruct x; cbn; split; intros H; try done; try (by eexists);
    by destruct H.
Qed.

Lemma is_finite_abs x : Float.is_finite (Float.abs x) = Float.is_finite x.
Proof. by destruct x. Qed.

Lemma is_zero_neg x : Float.is_zero (Float.neg x) = Float.is_zero x.
Proof. by destruct x. Qed.

(** X15. The derivation on a box of four values returns a transform and a
    size exactly in these cases. With a [tr] pair: the width and the
    height are not [<= 0], neither [width < tr[0]] nor [height < -tr[1]]
    holds, both resolutions are non-zero, and both quotients
    [width / tr[0]] and [height / -tr[1]] are finite. With a [ts] pair and
    no [tr]: the width and the height are not [<= 0] and both sizes are
    finite and non-zero, whatever the quotients are. *)
Theorem X15_derivation_succeeds (d : extent_dict) x0 y0 x1 y1 a b :
  d !! "te" = Some [x0; y0; x1; y1] ->
  (d !! "tr" = Some [a; b] ->
   is_Ok (Domain._get_geotransform d) <->
   Float.leb (Float.sub x1 x0) Float.zero = false /\
   Float.leb (Float.sub y1 y0) Float.zero = false /\
   Float.ltb (Float.sub x1 x0) a = false /\
   Float.ltb (Float.sub y1 y0) (Float.neg b) = false /\
   Float.is_zero a = false /\ Float.is_zero b = false /\
   Float.is_finite (Float.div (Float.sub x1 x0) a) = true /\
   Float.is_finite (Float.div (Float.sub y1 y0) (Float.neg b)) = true) /\
  (d !! "tr" = None -> d !! "ts" = Some [a; b] ->
   is_Ok (Domain._get_geotransform d) <->
   Float.leb (Float.sub x1 x0) Float.zero = false /\
   Float.leb (Float.sub y1 y0) Float.zero = false /\
   Float.is_zero a = false /\ Float.is_zero b = false /\
   Float.is_finite a = true /\ Float.is_finite b = true).
Proof.
  intros Ete. split.
  - intros Etr. split.
    + intros [[[gt nx] ny] H].
      apply geotransform_Ok_inv in H
        as (x0' & y0' & x1' & y1' & rest & rx & ry & sx & sy
            & Ete' & Lw & Lh & Er & _ & Ex & Ey).
      rewrite Ete in Ete'. injection Ete' as <- <- <- <- <-.
      unfold resolution_step in Er. rewrite Etr in Er.
      apply transform_tr_Ok_inv in Er
        as (a' & b' & [= <-] & [= <-] & _ & _ & Gw & Gh & Za & Zb & -> & ->).
      rewrite is_zero_neg in Zb. repeat split; try done.
      * apply py_int_Ok_iff. by eexists.
      * rewrite <- is_finite_abs. apply py_int_Ok_iff. by eexists.
    + intros (Lw & Lh & Gw & Gh & Za & Zb & Fx & Fy).
      rewrite (geotransform_tr d x0 y0 x1 y1 a b Ete Etr Lw Lh), Gw, Gh.
      unfold Float.py_div. rewrite is_zero_neg, Za, Zb.
      cbn [orb mbind result_bind].
      rewrite <- is_finite_abs in Fy.
      apply py_int_Ok_iff in Fx as [nx ->], Fy as [ny ->]. by eexists.
  - intros Etr Ets. split.
    + intros [[[gt nx] ny] H].
      apply geotransform_Ok_inv in H
        as (x0' & y0' & x1' & y1' & rest & rx & ry & sx & sy
            & Ete' & Lw & Lh & Er & _ & Ex & Ey).
      rewrite Ete in Ete'. injection Ete' as <- <- <- <- <-.
      unfold resolution_step, getitem in Er. rewrite Etr, Ets in Er.
      step_bind Er.
      apply transform_ts_Ok_inv in Er
        as (a' & b' & [= <- <-] & Za & Zb & _ & _ & -> & ->).
      repeat split; try done; apply py_int_Ok_iff; by eexists.
    + intros (Lw & Lh & Za & Zb & Fa & Fb).
      rewrite (geotransform_ts d x0 y0 x1 y1 a b Ete Etr Ets Lw Lh).
      unfold Float.py_div. rewrite Za, Zb. cbn [mbind result_bind].
      apply py_int_Ok_iff in Fa as [nx ->], Fb as [ny ->]. by eexists.
Qed.

(** The box [0,0,100,50] with the resolutions [10,10]. *)
Lemma X15_derivation_succeeds_witness :
  is_Ok (Domain._get_geotransform
           (spec_tr [F 0; F 0; F 100; F 50] [F 10; F 10])) <->
  Float.leb (Float.sub (F 100) (F 0)) Float.zero = false /\
  Float.leb (Float.sub (F 50) (F 0)) Float.zero = false /\
  Float.ltb (Float.sub (F 100) (F 0)) (F 10) = false /\
  Float.ltb (Float.sub (F 50) (F 0)) (Float.neg (F 10)) = false /\
  Float.is_zero (F 10) = false /\ Float.is_zero (F 10) = false /\
  Float.is_finite (Float.div (Float.sub (F 100) (F 0)) (F 10)) = true /\
  Float.is_finite
    (Float.div (Float.sub (F 50) (F 0)) (Float.neg (F 10))) = true.
Proof.
  destruct (X15_derivation_succeeds
              (spec_tr [F 0; F 0; F 100; F 50] [F 10; F 10])
              (F 0) (F 0) (F 100) (F 50) (F 10) (F 10)) as [H _].
  - vm_compute. reflexivity.
  - apply H. vm_compute. reflexivity.
Defined.
